(** * MacPhotosFilter: a shallow embedding of [scripts/filter_photos.py]

    The Python class [MacPhotosFilter] keeps a set of filter criteria (date
    window, target location, radius) and the list of media records selected
    by the last call of [filter_media].  This development embeds the class
    in Rocq, operation by operation, and proves the properties the
    specification states about it.

    Conventions.
    - A Python [float] is a binary64 value of [PrimFloat]; [<=] on floats is
      [PrimFloat.leb] (false as soon as one side is NaN, as in Python).
    - A naive [datetime] is the number of microseconds since the epoch, a
      [Z]; [timedelta(days=d)] is [d * 86400000000].
    - A call that may raise returns a [result]: [Return v] or [Raise e].
    - Everything the class reaches outside the repository (the TOML file,
      the Nominatim geocoder, geopy's [geodesic], the Photos library, the
      directories [pathlib] makes, PIL, the export primitive, the clock) is
      a field of a [World].
    - A method that acts on the outside returns what it did there, call by
      call, beside the way it ends. *)

From Stdlib Require Import ZArith String Ascii List Floats.
From Stdlib Require Import DecimalString DecimalZ DecimalPos.
From stdpp Require Import base list strings gmap.

Set Warnings "-inexact-float".
(* stdpp freezes [String.append] under [simpl]; the proofs below compute
   with it. *)
#[local] Arguments String.append !s1 s2 : simpl nomatch.
Local Open Scope string_scope.
Local Open Scope Z_scope.

(** ** Python values *)

Definition datetime : Type := Z.

Definition timedelta_days (d : Z) : Z := d * 86400000000.

(** A coordinate pair [(latitude, longitude)]. *)
Definition latlon : Type := (float * float)%type.

Inductive exception : Type :=
  | ValueError (msg : string)
  | OSError (msg : string)
  | TOMLDecodeError (msg : string)
  | GeocoderServiceError (msg : string).

Inductive result (A : Type) : Type :=
  | Return (a : A)
  | Raise (e : exception).
Arguments Return {A} a.
Arguments Raise {A} e.

(** Sequencing: an exception raised by the first call ends the computation.
    With this instance stdpp's [x ← r; k] reads as two Python statements. *)
#[export] Instance result_bind : MBind result := fun A B k r =>
  match r with
  | Return a => k a
  | Raise e => Raise e
  end.

(** [str(n)] for a Python [int]. *)
Definition str_int (n : Z) : string := NilZero.string_of_int (Z.to_int n).

Definition newline : string := String (ascii_of_nat 10) EmptyString.

(** Truthiness of a [str]: the empty string is false. *)
Definition truthy_str (s : string) : bool := negb (String.eqb s "").

(** ** Media records

    [osxphotos.PhotoInfo], restricted to the attributes the class reads.
    [location] is the optional coordinate pair of the media source
    interface; [if m.location] is true exactly when it is present. *)
Record PhotoInfo : Type := {
  date : datetime;
  location : option latlon;
  isphoto : bool;
  ismovie : bool;
  filename : string;
  path : string
}.

(** ** The configuration file

    The [defaults] table of [config.toml] with its three optional keys, typed
    as the configuration schema fixes them: [target_latlon] is an array of
    two floats, hence true in a condition whenever the key is present. *)
Record Defaults : Type := {
  cfg_home_address : option string;
  cfg_target_latlon : option latlon;
  cfg_max_distance_km : option float
}.

Definition no_defaults : Defaults :=
  {| cfg_home_address := None; cfg_target_latlon := None;
     cfg_max_distance_km := None |}.

(** The parsed file: the [defaults] table may be absent altogether. *)
Record Config : Type := { cfg_defaults : option Defaults }.

(** [self.config.get("defaults", {})] *)
Definition get_defaults (c : Config) : Defaults :=
  match cfg_defaults c with
  | Some d => d
  | None => no_defaults
  end.

(** ** The world outside the class *)

Record World : Type := {
  (** [open(config_path, "rb")] followed by [tomllib.load]. *)
  tomllib_load : string -> result Config;
  (** [Nominatim(...).geocode(address)]: a location, [None] when nothing
      matches, or an exception of the geocoding service. *)
  geocode : string -> result (option latlon);
  (** [geodesic(p, q).km] *)
  geodesic : latlon -> latlon -> float;
  (** [datetime.now()] *)
  now : datetime;
  (** [osxphotos.PhotosDB()]: the library opens, or the call raises. *)
  PhotosDB : result unit;
  (** [self.photosdb.photos()], in the order it enumerates. *)
  photos : list PhotoInfo;
  (** [Path(d).mkdir(parents=True, exist_ok=True)] *)
  mkdir : string -> result unit;
  (** [str(Path(d))] *)
  str_Path : string -> string;
  (** [Image.open(path)], [img.thumbnail(size)], [img.save(thumb_file)] for
      one record, given the size, the directory and the file name: [None]
      when all three succeed, else the text of the exception. *)
  make_thumbnail : PhotoInfo -> Z * Z -> string -> string -> option string;
  (** [media.export(dir, original, edited)] *)
  export : PhotoInfo -> string -> bool -> bool -> result unit
}.

(** ** The session object

    The attributes of [self]. [self.photosdb] is the handle on the Photos
    library; what [self.photosdb.photos()] enumerates at the moment of a call
    is the [photos] of the world of that call. *)

Record MacPhotosFilter : Type := {
  config : Config;
  home_address : option string;
  max_distance_km : float;
  start_date : datetime;
  end_date : datetime;
  target_location : latlon;
  filtered_media : list PhotoInfo
}.

Definition set_filtered_media (l : list PhotoInfo) (s : MacPhotosFilter)
  : MacPhotosFilter :=
  {| config := config s; home_address := home_address s;
     max_distance_km := max_distance_km s; start_date := start_date s;
     end_date := end_date s; target_location := target_location s;
     filtered_media := l |}.

Definition set_target_location (p : latlon) (s : MacPhotosFilter)
  : MacPhotosFilter :=
  {| config := config s; home_address := home_address s;
     max_distance_km := max_distance_km s; start_date := start_date s;
     end_date := end_date s; target_location := p;
     filtered_media := filtered_media s |}.

(** ** [address_to_gps] *)

Definition address_to_gps (w : World) (address : string)
  : result (option latlon) :=
  loc ← geocode w address;
  match loc with
  | Some (latitude, longitude) => Return (Some (latitude, longitude))
  | None => Return None
  end.

(** ** [__init__]

    [end_date] defaults to yesterday, [start_date] to the epoch (its default
    is resolved by the caller, as Python does for a default argument). The
    arguments have their annotated types: a [target_location] that is given
    is a pair, hence true in [if target_location]. *)
Definition default_start_date : datetime := 0.

Definition yesterday (w : World) : datetime := now w - timedelta_days 1.

Definition __init__ (w : World)
    (start_date_arg : datetime) (end_date_arg : option datetime)
    (target_location_arg : option latlon) (config_path : string)
    (max_distance_km_arg : option float) : result MacPhotosFilter :=
  cfg ← tomllib_load w config_path;
  let defaults := get_defaults cfg in
  let home := cfg_home_address defaults in
  let dist :=
    match max_distance_km_arg with
    | Some d => d
    | None =>
        match cfg_max_distance_km defaults with
        | Some d => d
        | None => 2%float
        end
    end in
  let stop :=
    match end_date_arg with
    | Some e => e
    | None => yesterday w
    end in
  target ←
    match target_location_arg with
    | Some p => Return p
    | None =>
        match cfg_target_latlon defaults with
        | Some p => Return p
        | None =>
            match home with
            | Some a =>
                if truthy_str a then
                  coords ← address_to_gps w a;
                  match coords with
                  | Some p => Return p
                  | None => Raise (ValueError "Could not geocode home_address")
                  end
                else
                  Raise (ValueError
                    "Must specify either target_location or home_address or target_latlon in config")
            | None =>
                Raise (ValueError
                  "Must specify either target_location or home_address or target_latlon in config")
            end
        end
    end;
  _ ← PhotosDB w;
  Return {| config := cfg; home_address := home; max_distance_km := dist;
            start_date := start_date_arg; end_date := stop;
            target_location := target; filtered_media := [] |}.

(** ** Mutators *)

Definition set_date_range (w : World) (start : datetime)
    (stop : option datetime) (s : MacPhotosFilter) : MacPhotosFilter :=
  {| config := config s; home_address := home_address s;
     max_distance_km := max_distance_km s; start_date := start;
     end_date := match stop with Some e => e | None => yesterday w end;
     target_location := target_location s;
     filtered_media := filtered_media s |}.

(** Returns the session after the call and what the call returns; when the
    geocoder raises, nothing has been assigned yet. *)
Definition set_location_by_address (w : World) (address : string)
    (s : MacPhotosFilter) : MacPhotosFilter * result bool :=
  match address_to_gps w address with
  | Return (Some coords) => (set_target_location coords s, Return true)
  | Return None => (s, Return false)
  | Raise e => (s, Raise e)
  end.

Definition set_location_by_gps (lat lon : float) (s : MacPhotosFilter)
  : MacPhotosFilter := set_target_location (lat, lon) s.

Definition set_distance_km (distance : float) (s : MacPhotosFilter)
  : MacPhotosFilter :=
  {| config := config s; home_address := home_address s;
     max_distance_km := distance; start_date := start_date s;
     end_date := end_date s; target_location := target_location s;
     filtered_media := filtered_media s |}.

(** ** [filter_media] *)

(** The condition of the first comprehension. *)
Definition date_and_type_ok (s : MacPhotosFilter) (media_type : string)
    (p : PhotoInfo) : bool :=
  ((start_date s <=? date p) && (date p <=? end_date s))
  && ((media_type =? "all")%string
      || ((media_type =? "photo")%string && isphoto p)
      || ((media_type =? "video")%string && ismovie p)).

(** The condition of the second comprehension. *)
Definition location_ok (w : World) (s : MacPhotosFilter) (m : PhotoInfo)
  : bool :=
  match location m with
  | Some (lat, lon) =>
      PrimFloat.leb (geodesic w (target_location s) (lat, lon))
                    (max_distance_km s)
  | None => false
  end.

(** Returns the session after the call and the returned list. *)
Definition filter_media (w : World) (media_type : string)
    (s : MacPhotosFilter) : MacPhotosFilter * list PhotoInfo :=
  let media := List.filter (date_and_type_ok s media_type) (photos w) in
  let kept := List.filter (location_ok w s) media in
  (set_filtered_media kept s, kept).

(** ** [save_thumbnails]

    What the loop does for one record: it saves a thumbnail under a file
    name, or prints the line of the [except] branch. *)
Inductive thumb_outcome : Type :=
  | Saved (thumb_file : string)
  | Printed (line : string).

(** [f"thumb_{count}_{media.filename}"] *)
Definition thumb_name (count : Z) (media : PhotoInfo) : string :=
  "thumb_" ++ str_int count ++ "_" ++ filename media.

(** [f"Error creating thumbnail for {media.filename}: {e}"] *)
Definition thumb_error_line (media : PhotoInfo) (e : string) : string :=
  "Error creating thumbnail for " ++ filename media ++ ": " ++ e.

(** The [for] loop, started with the current [count] on the records still to
    visit; the empty list in the second branch is the [break]. *)
Fixpoint thumbnail_loop (w : World) (out_dir : string) (thumb_size : Z * Z)
    (max_media : Z) (count : Z) (l : list PhotoInfo)
  : list (PhotoInfo * thumb_outcome) :=
  match l with
  | [] => []
  | media :: rest =>
      if max_media <=? count then []
      else
        match make_thumbnail w media thumb_size out_dir
                (thumb_name count media) with
        | None =>
            (media, Saved (thumb_name count media))
              :: thumbnail_loop w out_dir thumb_size max_media (count + 1) rest
        | Some e =>
            (media, Printed (thumb_error_line media e))
              :: thumbnail_loop w out_dir thumb_size max_media count rest
        end
  end.

(** The records visited, each with what was done for it, in order, and how
    the call ends. The directory is made first, outside the [try]: when
    [mkdir] raises, the call raises and no record is visited. *)
Definition save_thumbnails (w : World) (out_dir : string)
    (thumb_size : Z * Z) (max_media : Z) (s : MacPhotosFilter)
  : list (PhotoInfo * thumb_outcome) * result unit :=
  match mkdir w out_dir with
  | Raise e => ([], Raise e)
  | Return _ =>
      (thumbnail_loop w out_dir thumb_size max_media 0 (filtered_media s),
       Return tt)
  end.

Definition default_thumb_size : Z * Z := (300, 300).
Definition default_max_media : Z := 10.

(** ** [list_media_info] *)

Record media_info : Type := {
  info_filename : string;
  info_date : datetime;
  info_location : option latlon;
  info_path : string;
  info_type : string
}.

Definition list_media_info (s : MacPhotosFilter) : list media_info :=
  List.map (fun media =>
    {| info_filename := filename media; info_date := date media;
       info_location := location media; info_path := path media;
       info_type := if isphoto media then "photo" else "video" |})
    (filtered_media s).

(** ** [save_filtered_media_paths]

    The file system maps a path to the text of the file stored there.
    [open(filepath, "w")] starts from the empty text and every [f.write]
    appends to it. *)
Definition write_paths (l : list PhotoInfo) : string :=
  fold_left (fun text media => text ++ (path media ++ newline)) l "".

Definition save_filtered_media_paths (filepath : string)
    (s : MacPhotosFilter) (fs : gmap string string) : gmap string string :=
  <[filepath := write_paths (filtered_media s)]> fs.

(** ** [export_filtered_media]

    The [for] loop: the records [media.export] was called for, in order,
    and how the loop ends. An exception of [export] ends it there. *)
Fixpoint export_calls (w : World) (export_dir : string)
    (original edited : bool) (l : list PhotoInfo)
  : list PhotoInfo * result unit :=
  match l with
  | [] => ([], Return tt)
  | media :: rest =>
      match export w media export_dir original edited with
      | Return _ =>
          let (called, outcome) :=
            export_calls w export_dir original edited rest in
          (media :: called, outcome)
      | Raise e => ([media], Raise e)
      end
  end.

(** The directory is made first: when [mkdir] raises, the call raises and
    nothing is exported. The records are exported to [str(export_path)]. *)
Definition export_filtered_media (w : World) (export_dir : string)
    (original edited : bool) (s : MacPhotosFilter)
  : list PhotoInfo * result unit :=
  match mkdir w export_dir with
  | Raise e => ([], Raise e)
  | Return _ =>
      export_calls w (str_Path w export_dir) original edited
        (filtered_media s)
  end.

(** ** [clear_filters] *)

Definition clear_filters (s : MacPhotosFilter) : MacPhotosFilter :=
  set_filtered_media [] s.

(** ** Sessions in use

    A call of a method of the class, with its arguments. *)
Inductive call : Type :=
  | SetDateRange (start : datetime) (stop : option datetime)
  | SetLocationByAddress (address : string)
  | SetLocationByGps (lat lon : float)
  | SetDistanceKm (distance : float)
  | FilterMedia (media_type : string)
  | SaveThumbnails (out_dir : string) (thumb_size : Z * Z) (max_media : Z)
  | ListMediaInfo
  | SaveFilteredMediaPaths (filepath : string)
  | ExportFilteredMedia (export_dir : string) (original edited : bool)
  | ClearFilters.

(** The session after a call made in world [w]. The calls that only read the
    session leave it as it is, whatever they write or raise. *)
Definition after (w : World) (c : call) (s : MacPhotosFilter)
  : MacPhotosFilter :=
  match c with
  | SetDateRange start stop => set_date_range w start stop s
  | SetLocationByAddress address => fst (set_location_by_address w address s)
  | SetLocationByGps lat lon => set_location_by_gps lat lon s
  | SetDistanceKm distance => set_distance_km distance s
  | FilterMedia media_type => fst (filter_media w media_type s)
  | SaveThumbnails _ _ _ => s
  | ListMediaInfo => s
  | SaveFilteredMediaPaths _ => s
  | ExportFilteredMedia _ _ _ => s
  | ClearFilters => clear_filters s
  end.

(** A run: each call is made in the world of its moment. *)
Definition run (cs : list (World * call)) (s : MacPhotosFilter)
  : MacPhotosFilter :=
  fold_left (fun st wc => after (fst wc) (snd wc) st) cs s.

(** [x > 0] on floats. *)
Definition positive (x : float) : Prop := PrimFloat.ltb 0%float x = true.

(** * Notions used in the statements *)

(** The requested type matches a record: ["all"] matches every record,
    ["photo"] the photos, ["video"] the movies. *)
Definition type_matches (media_type : string) (p : PhotoInfo) : Prop :=
  media_type = "all"
  \/ (media_type = "photo" /\ isphoto p = true)
  \/ (media_type = "video" /\ ismovie p = true).

(** The record has coordinates at most [max_distance_km] from the target. *)
Definition within_distance (w : World) (s : MacPhotosFilter) (p : PhotoInfo)
  : Prop :=
  exists lat lon,
    location p = Some (lat, lon)
    /\ PrimFloat.leb (geodesic w (target_location s) (lat, lon))
                     (max_distance_km s) = true.

(** How the constructor ends once the target is resolved: with the session,
    if the Photos library opens, else with the exception of [PhotosDB()]. *)
Definition opened (w : World) (s : MacPhotosFilter) : result MacPhotosFilter :=
  match PhotosDB w with
  | Return _ => Return s
  | Raise e => Raise e
  end.

(** The two messages of [__init__]. *)
Definition could_not_geocode : exception :=
  ValueError "Could not geocode home_address".
Definition must_specify : exception :=
  ValueError
    "Must specify either target_location or home_address or target_latlon in config".


(** The thumbnails written, in order: each record with its file name. *)
Fixpoint saved (tr : list (PhotoInfo * thumb_outcome))
  : list (PhotoInfo * string) :=
  match tr with
  | [] => []
  | (media, Saved thumb_file) :: rest => (media, thumb_file) :: saved rest
  | (_, Printed _) :: rest => saved rest
  end.





(** ** The three-record scenario of the tests

    The records of the mocked library at time [t], in its order: a photo
    one day old at the target, a photo two days old 0.05 degrees away in
    latitude and longitude, a video one day old at the target. *)
Definition target_a : latlon := ((-33.85)%float, 151.15%float).
Definition place_b : latlon := ((-33.90)%float, 151.20%float).

Definition rec_a (t : datetime) : PhotoInfo :=
  {| date := t - timedelta_days 1; location := Some target_a;
     isphoto := true; ismovie := false;
     filename := "test.jpg"; path := "/tmp/test.jpg" |}.

Definition rec_b (t : datetime) : PhotoInfo :=
  {| date := t - timedelta_days 2; location := Some place_b;
     isphoto := true; ismovie := false;
     filename := "test.jpg"; path := "/tmp/test.jpg" |}.

Definition rec_c (t : datetime) : PhotoInfo :=
  {| date := t - timedelta_days 1; location := Some target_a;
     isphoto := false; ismovie := true;
     filename := "test.jpg"; path := "/tmp/test.jpg" |}.

(** The configuration file of the tests. *)
Definition default_config : Config :=
  {| cfg_defaults := Some
       {| cfg_home_address := None; cfg_target_latlon := Some target_a;
          cfg_max_distance_km := Some 10%float |} |}.

Definition same_place (p q : latlon) : bool :=
  PrimFloat.eqb (fst p) (fst q) && PrimFloat.eqb (snd p) (snd q).

(** The geodesic distance on the two places of the scenario, in km: none
    from a place to itself, and 7.222 km from (-33.85, 151.15) to
    (-33.90, 151.20) on the WGS-84 ellipsoid (0.05 degrees of latitude are
    5.5 km there and 0.05 degrees of longitude 4.6 km). *)
Definition scenario_geodesic (p q : latlon) : float :=
  if same_place p q then 0%float else 7.222050171854176%float.

(** A world for the scenario at the moment [t]: the geocoding service is out
    of reach, the library opens, every directory can be made and every image
    decodes. The directories named below are written in the form [Path]
    prints them in, so that [str(Path(d))] is [d]. *)
Definition scenario_world (t : datetime) : World :=
  {| tomllib_load := fun _ => Return default_config;
     geocode := fun _ => Raise (GeocoderServiceError "service unreachable");
     geodesic := scenario_geodesic;
     now := t;
     PhotosDB := Return tt;
     photos := [rec_a t; rec_b t; rec_c t];
     mkdir := fun _ => Return tt;
     str_Path := fun d => d;
     make_thumbnail := fun _ _ _ _ => None;
     export := fun _ _ _ _ => Return tt |}.

(** A second world: the configuration names a home address, which the
    geocoder knows; [elsewhere.toml] names one it does not know, and
    [empty.toml] has no [defaults] table. *)
Definition seymour_st : latlon := ((-33.848803)%float, 151.153135%float).

Definition home_config : Config :=
  {| cfg_defaults := Some
       {| cfg_home_address := Some "1 Seymour St"; cfg_target_latlon := None;
          cfg_max_distance_km := None |} |}.

Definition elsewhere_config : Config :=
  {| cfg_defaults := Some
       {| cfg_home_address := Some "Nowhere at all";
          cfg_target_latlon := None; cfg_max_distance_km := None |} |}.

Definition home_world : World :=
  {| tomllib_load := fun config_path =>
       if (config_path =? "config.toml")%string then Return home_config
       else if (config_path =? "elsewhere.toml")%string
            then Return elsewhere_config
       else if (config_path =? "empty.toml")%string
            then Return {| cfg_defaults := None |}
       else Raise (OSError "No such file or directory");
     geocode := fun address =>
       if (address =? "1 Seymour St")%string then Return (Some seymour_st)
       else Return None;
     geodesic := scenario_geodesic;
     now := 1735732800000000;
     PhotosDB := Return tt;
     photos := [];
     mkdir := fun _ => Return tt;
     str_Path := fun d => d;
     make_thumbnail := fun _ _ _ _ => None;
     export := fun _ _ _ _ => Return tt |}.

(** Noon of 1 January 2025. *)
Definition t0 : datetime := 1735732800000000.

(** The session the tests construct:
    [MacPhotosFilter(start_date=now - 3 days, end_date=now, config_path=...)]. *)
Definition scenario_session (t : datetime) : MacPhotosFilter :=
  {| config := default_config; home_address := None;
     max_distance_km := 10%float;
     start_date := t - timedelta_days 3; end_date := t;
     target_location := target_a; filtered_media := [] |}.

(** A record the library has no coordinates for. *)
Definition rec_nowhere (t : datetime) : PhotoInfo :=
  {| date := t - timedelta_days 1; location := None;
     isphoto := true; ismovie := false;
     filename := "scan.jpg"; path := "/tmp/scan.jpg" |}.

(** The scenario with that record added in front. *)
Definition nowhere_world (t : datetime) : World :=
  {| tomllib_load := tomllib_load (scenario_world t);
     geocode := geocode (scenario_world t);
     geodesic := scenario_geodesic;
     now := t;
     PhotosDB := Return tt;
     photos := rec_nowhere t :: photos (scenario_world t);
     mkdir := mkdir (scenario_world t);
     str_Path := str_Path (scenario_world t);
     make_thumbnail := make_thumbnail (scenario_world t);
     export := export (scenario_world t) |}.

(** A world where PIL cannot decode a movie. *)
Definition stills_world (t : datetime) : World :=
  {| tomllib_load := tomllib_load (scenario_world t);
     geocode := geocode (scenario_world t);
     geodesic := scenario_geodesic;
     now := t;
     PhotosDB := Return tt;
     photos := [rec_c t; rec_a t; rec_b t; rec_a t];
     mkdir := mkdir (scenario_world t);
     str_Path := str_Path (scenario_world t);
     make_thumbnail := fun media _ _ _ =>
       if ismovie media then Some "cannot identify image file" else None;
     export := export (scenario_world t) |}.

(** ** [main]

    The local variables of the example entry point. *)
Definition main_target_latlon : latlon :=
  ((-33.848803)%float, 151.153135%float).
Definition main_max_distance_km : float := 0.2%float.
Definition main_export_dir : string :=
  "/Users/mjboothaus/tmp/photos/seymour_st".
Definition main_thumb_dir : string :=
  "/Users/mjboothaus/tmp/photos/seymour_st_thumbs".

(** The lines [save_thumbnails] prints. *)
Fixpoint printed (tr : list (PhotoInfo * thumb_outcome)) : list string :=
  match tr with
  | [] => []
  | (_, Printed line) :: rest => line :: printed rest
  | (_, Saved _) :: rest => printed rest
  end.

(** What a run of [main] leaves when it returns: the session, the thumbnail
    loop record by record, and the standard output. *)
Record main_run : Type := {
  main_pf : MacPhotosFilter;
  main_thumbnails : list (PhotoInfo * thumb_outcome);
  main_stdout : list string
}.

Definition main (w : World) : result main_run :=
  pf ← __init__ w default_start_date None (Some main_target_latlon)
         "config.toml" (Some main_max_distance_km);
  let pf := fst (filter_media w "all" pf) in
  _ ← snd (export_filtered_media w main_export_dir true false pf);
  let thumbs :=
    save_thumbnails w main_thumb_dir default_thumb_size default_max_media pf in
  _ ← snd thumbs;
  Return {| main_pf := pf; main_thumbnails := fst thumbs;
            main_stdout :=
              printed (fst thumbs)
              ++ ["Exported "
                    ++ str_int (Z.of_nat (length (filtered_media pf)))
                    ++ " files to " ++ main_export_dir;
                  "Saved thumbnails to " ++ main_thumb_dir] |}.

(** A world whose Photos library refuses to export movies. *)
Definition no_movie_export_world (t : datetime) : World :=
  {| tomllib_load := tomllib_load (scenario_world t);
     geocode := geocode (scenario_world t);
     geodesic := scenario_geodesic;
     now := t;
     PhotosDB := Return tt;
     photos := [rec_a t; rec_c t; rec_b t];
     mkdir := mkdir (scenario_world t);
     str_Path := str_Path (scenario_world t);
     make_thumbnail := make_thumbnail (scenario_world t);
     export := fun media _ _ _ =>
       if ismovie media then Raise (OSError "export failed") else Return tt |}.


(** The character does not occur in the text. *)
Fixpoint free_of (c : ascii) (text : string) : bool :=
  match text with
  | EmptyString => true
  | String x rest => negb (Ascii.eqb x c) && free_of c rest
  end.

(** The records of the library dated from the epoch to one day before now
    that have coordinates within [main_max_distance_km] of
    [main_target_latlon], in the order of the library. *)
Definition main_selection (w : World) : list PhotoInfo :=
  List.filter
    (fun p =>
       (0 <=? date p) && (date p <=? now w - timedelta_days 1)
       && match location p with
          | Some q =>
              PrimFloat.leb (geodesic w main_target_latlon q)
                main_max_distance_km
          | None => false
          end)
    (photos w).

(** A world without any configuration file. *)
Definition no_config_world (t : datetime) : World :=
  {| tomllib_load := fun _ => Raise (OSError "No such file or directory");
     geocode := geocode (scenario_world t);
     geodesic := scenario_geodesic;
     now := t;
     PhotosDB := Return tt;
     photos := photos (scenario_world t);
     mkdir := mkdir (scenario_world t);
     str_Path := str_Path (scenario_world t);
     make_thumbnail := make_thumbnail (scenario_world t);
     export := export (scenario_world t) |}.

(** A world where the Photos library cannot be opened. *)
Definition no_library_world (t : datetime) : World :=
  {| tomllib_load := tomllib_load (scenario_world t);
     geocode := geocode (scenario_world t);
     geodesic := scenario_geodesic;
     now := t;
     PhotosDB := Raise (OSError "cannot open the Photos library");
     photos := [];
     mkdir := mkdir (scenario_world t);
     str_Path := str_Path (scenario_world t);
     make_thumbnail := make_thumbnail (scenario_world t);
     export := export (scenario_world t) |}.

(** A world where a file stands at ["taken"], so that no directory can be
    made there; [Path] prints ["out/"] as ["out"]. *)
Definition taken_world (t : datetime) : World :=
  {| tomllib_load := tomllib_load (scenario_world t);
     geocode := geocode (scenario_world t);
     geodesic := scenario_geodesic;
     now := t;
     PhotosDB := Return tt;
     photos := photos (scenario_world t);
     mkdir := fun d =>
       if (d =? "taken")%string then Raise (OSError "File exists: 'taken'")
       else Return tt;
     str_Path := fun d => if (d =? "out/")%string then "out" else d;
     make_thumbnail := make_thumbnail (scenario_world t);
     export := export (scenario_world t) |}.

(** * Properties *)

(** ** Filtering *)

Lemma date_and_type_ok_spec (s : MacPhotosFilter) media_type p :
  date_and_type_ok s media_type p = true
  <-> (start_date s <= date p <= end_date s) /\ type_matches media_type p.
Proof.
  unfold date_and_type_ok, type_matches.
  rewrite !andb_true_iff, !orb_true_iff, !andb_true_iff, !Z.leb_le,
    !String.eqb_eq.
  tauto.
Qed.

Lemma location_ok_spec w s p :
  location_ok w s p = true <-> within_distance w s p.
Proof.
  unfold location_ok, within_distance.
  destruct (location p) as [[lat lon]|]; split.
  - intros H. exists lat, lon. split; [reflexivity | exact H].
  - intros (lat' & lon' & Heq & H). injection Heq as -> ->. exact H.
  - discriminate.
  - intros (lat' & lon' & Heq & _). discriminate.
Qed.

Lemma filter_media_result w media_type s :
  snd (filter_media w media_type s)
  = List.filter (fun p => date_and_type_ok s media_type p && location_ok w s p)
      (photos w).
Proof.
  unfold filter_media; simpl.
  induction (photos w) as [|p l IH]; simpl; [reflexivity|].
  destruct (date_and_type_ok s media_type p); simpl; [|exact IH].
  destruct (location_ok w s p); simpl; rewrite IH; reflexivity.
Qed.

Lemma filter_media_stores w media_type s :
  filtered_media (fst (filter_media w media_type s))
  = snd (filter_media w media_type s).
Proof. reflexivity. Qed.

(** C1. A record enumerated by the media source is in the result of
    [filter_media] exactly when it has coordinates, its distance to the
    target is at most [max_distance_km] (the bound included), its date lies
    in the closed window from [start_date] to [end_date], and its type
    matches the requested one; a record without coordinates is never in the
    result. *)
Theorem filter_media_includes_iff (w : World) (media_type : string)
    (s : MacPhotosFilter) (p : PhotoInfo) :
  (In p (snd (filter_media w media_type s))
   <-> In p (photos w)
       /\ within_distance w s p
       /\ (start_date s <= date p <= end_date s)
       /\ type_matches media_type p)
  /\ (location p = None -> ~ In p (snd (filter_media w media_type s))).
Proof.
  assert (Hiff : In p (snd (filter_media w media_type s))
                 <-> In p (photos w) /\ within_distance w s p
                     /\ (start_date s <= date p <= end_date s)
                     /\ type_matches media_type p).
  { rewrite filter_media_result, filter_In, andb_true_iff,
      date_and_type_ok_spec, location_ok_spec. tauto. }
  split; [exact Hiff|].
  intros Hnone Hin. apply Hiff in Hin.
  destruct Hin as (_ & (lat & lon & Hloc & _) & _). congruence.
Qed.

Lemma filter_media_includes_iff_witness :
  ~ In (rec_nowhere t0)
      (snd (filter_media (nowhere_world t0) "all" (scenario_session t0))).
Proof.
  apply (proj2 (filter_media_includes_iff (nowhere_world t0) "all"
                  (scenario_session t0) (rec_nowhere t0))).
  reflexivity.
Defined.

(** The bound is included: with the radius set to the very distance of
    record b, record b is kept. *)
Example filter_media_at_the_bound :
  snd (filter_media (scenario_world t0) "photo"
         (set_distance_km 7.222050171854176%float (scenario_session t0)))
  = [rec_a t0; rec_b t0].
Proof. reflexivity. Qed.

Example filter_media_skips_record_without_location :
  snd (filter_media (nowhere_world t0) "all" (scenario_session t0))
  = [rec_a t0; rec_b t0; rec_c t0].
Proof. reflexivity. Qed.

(** The result depends on the session through the four criteria only. *)
Lemma filter_media_reads_criteria w media_type s1 s2 :
  start_date s1 = start_date s2 -> end_date s1 = end_date s2 ->
  target_location s1 = target_location s2 ->
  max_distance_km s1 = max_distance_km s2 ->
  snd (filter_media w media_type s1) = snd (filter_media w media_type s2).
Proof.
  intros Hs He Ht Hm. rewrite !filter_media_result.
  apply filter_ext. intros p.
  unfold date_and_type_ok, location_ok. rewrite Hs, He, Ht, Hm. reflexivity.
Qed.

(** C4. Filtering again with the same type, in the same world and with the
    criteria untouched, returns the same list and stores the same list. *)
Theorem filter_media_idempotent (w : World) (media_type : string)
    (s : MacPhotosFilter) :
  snd (filter_media w media_type (fst (filter_media w media_type s)))
  = snd (filter_media w media_type s)
  /\ fst (filter_media w media_type (fst (filter_media w media_type s)))
     = fst (filter_media w media_type s).
Proof.
  assert (Hres : snd (filter_media w media_type
                        (fst (filter_media w media_type s)))
                 = snd (filter_media w media_type s))
    by (apply filter_media_reads_criteria; reflexivity).
  split; [exact Hres|].
  unfold filter_media in *. simpl in *. rewrite Hres. reflexivity.
Qed.

Lemma scenario_session_constructed (t : datetime) :
  __init__ (scenario_world t) (t - timedelta_days 3) (Some t) None
    "config.toml" None
  = Return (scenario_session t).
Proof. reflexivity. Qed.

Lemma filter_media_sublist w media_type s :
  snd (filter_media w media_type s) `sublist_of` photos w.
Proof.
  rewrite filter_media_result.
  induction (photos w) as [|p l IH]; simpl.
  - constructor.
  - destruct (date_and_type_ok s media_type p && location_ok w s p).
    + by apply sublist_skip.
    + by apply sublist_cons.
Qed.

(** In the scenario, whatever the distance function, the dates and types
    decide alone for everything but the distance. *)
Lemma scenario_date_and_type (t : datetime) (s : MacPhotosFilter) :
  start_date s = t - timedelta_days 3 -> end_date s = t ->
  date_and_type_ok s "photo" (rec_a t) = true
  /\ date_and_type_ok s "photo" (rec_b t) = true
  /\ date_and_type_ok s "photo" (rec_c t) = false
  /\ date_and_type_ok s "video" (rec_a t) = false
  /\ date_and_type_ok s "video" (rec_b t) = false
  /\ date_and_type_ok s "video" (rec_c t) = true
  /\ date_and_type_ok s "all" (rec_a t) = true
  /\ date_and_type_ok s "all" (rec_b t) = true
  /\ date_and_type_ok s "all" (rec_c t) = true.
Proof.
  intros Hs He. unfold date_and_type_ok. rewrite Hs, He. simpl.
  unfold timedelta_days.
  assert (H1 : (t - 3 * 86400000000 <=? t - 1 * 86400000000) = true)
    by (apply Z.leb_le; lia).
  assert (H2 : (t - 1 * 86400000000 <=? t) = true) by (apply Z.leb_le; lia).
  assert (H3 : (t - 3 * 86400000000 <=? t - 2 * 86400000000) = true)
    by (apply Z.leb_le; lia).
  assert (H4 : (t - 2 * 86400000000 <=? t) = true) by (apply Z.leb_le; lia).
  rewrite H1, H2, H3, H4. repeat split; reflexivity.
Qed.

Lemma scenario_location (w : World) (s : MacPhotosFilter) (t : datetime) :
  target_location s = target_a -> max_distance_km s = 10%float ->
  PrimFloat.leb (geodesic w target_a target_a) 10%float = true ->
  PrimFloat.leb (geodesic w target_a place_b) 10%float = true ->
  location_ok w s (rec_a t) = true
  /\ location_ok w s (rec_b t) = true
  /\ location_ok w s (rec_c t) = true.
Proof.
  intros Ht Hm Ha Hb. unfold location_ok; simpl.
  fold target_a place_b. rewrite Ht, Hm. auto.
Qed.

(** C5 (as amended). The result of [filter_media] is a subsequence of the
    enumeration of the media source, in its order. In the three-record
    scenario (target (-33.85, 151.15), radius 10 km, window of the last three
    days) record b is inside the radius as soon as the distance from the
    target to (-33.90, 151.20) is at most 10 km, and it is a photo inside
    the window: ["photo"] gives [a; b], ["video"] gives [c], ["all"] gives
    [a; b; c]. *)
Theorem filter_media_source_order_scenario :
  (forall (w : World) (media_type : string) (s : MacPhotosFilter),
     snd (filter_media w media_type s) `sublist_of` photos w)
  /\ (forall (w : World) (s : MacPhotosFilter) (t : datetime),
        photos w = [rec_a t; rec_b t; rec_c t] ->
        start_date s = t - timedelta_days 3 -> end_date s = t ->
        target_location s = target_a -> max_distance_km s = 10%float ->
        PrimFloat.leb (geodesic w target_a target_a) 10%float = true ->
        PrimFloat.leb (geodesic w target_a place_b) 10%float = true ->
        snd (filter_media w "photo" s) = [rec_a t; rec_b t]
        /\ snd (filter_media w "video" s) = [rec_c t]
        /\ snd (filter_media w "all" s) = [rec_a t; rec_b t; rec_c t]).
Proof.
  split; [exact filter_media_sublist|].
  intros w s t Hphotos Hs He Ht Hm Ha Hb.
  destruct (scenario_date_and_type t s Hs He)
    as (P1 & P2 & P3 & V1 & V2 & V3 & A1 & A2 & A3).
  destruct (scenario_location w s t Ht Hm Ha Hb) as (L1 & L2 & L3).
  rewrite !filter_media_result, Hphotos. simpl.
  rewrite P1, P2, P3, V1, V2, V3, A1, A2, A3, L1, L2, L3.
  repeat split; reflexivity.
Qed.

Lemma filter_media_source_order_scenario_witness :
  snd (filter_media (scenario_world t0) "photo" (scenario_session t0))
    = [rec_a t0; rec_b t0]
  /\ snd (filter_media (scenario_world t0) "video" (scenario_session t0))
     = [rec_c t0]
  /\ snd (filter_media (scenario_world t0) "all" (scenario_session t0))
     = [rec_a t0; rec_b t0; rec_c t0].
Proof.
  apply (proj2 filter_media_source_order_scenario
           (scenario_world t0) (scenario_session t0) t0); reflexivity.
Defined.

(** In the scenario as the specification states it, ["photo"] does not give
    [a] alone, nor ["all"] the two records [a; c]: record b, 7.2 km from the
    target, is kept too. *)
Lemma filter_media_scenario_keeps_b :
  ~ (snd (filter_media (scenario_world t0) "photo" (scenario_session t0))
       = [rec_a t0]
     /\ snd (filter_media (scenario_world t0) "video" (scenario_session t0))
        = [rec_c t0]
     /\ snd (filter_media (scenario_world t0) "all" (scenario_session t0))
        = [rec_a t0; rec_c t0]).
Proof.
  intros (H & _). apply (f_equal (@length PhotoInfo)) in H.
  vm_compute in H. discriminate H.
Qed.

(** ** Geocoding and the target location *)

Lemma address_to_gps_geocode w address :
  address_to_gps w address = geocode w address.
Proof.
  unfold address_to_gps. destruct (geocode w address) as [[[lat lon]|]|e];
    reflexivity.
Qed.

(** C9 (as amended). [address_to_gps] returns [None] when the geocoder finds
    no match and the pair (latitude, longitude) when it finds one, and it
    returns a pair in no other case; it handles no exception, so what the
    geocoder raises, on a network error for one, reaches the caller. *)
Theorem address_to_gps_outcomes (w : World) (address : string) :
  (geocode w address = Return None ->
     address_to_gps w address = Return None)
  /\ (forall p, geocode w address = Return (Some p)
                <-> address_to_gps w address = Return (Some p))
  /\ (forall e, geocode w address = Raise e ->
        address_to_gps w address = Raise e).
Proof.
  rewrite address_to_gps_geocode. repeat split; auto.
Qed.

Lemma address_to_gps_outcomes_witness :
  address_to_gps (scenario_world t0) "1 Seymour St"
  = Raise (GeocoderServiceError "service unreachable").
Proof.
  apply (proj2 (proj2 (address_to_gps_outcomes (scenario_world t0)
                         "1 Seymour St"))).
  reflexivity.
Defined.

(** With the geocoding service out of reach the lookup fails, and
    [address_to_gps] raises instead of returning [None]. *)
Lemma address_to_gps_raises_on_network_error :
  geocode (scenario_world t0) "1 Seymour St"
    = Raise (GeocoderServiceError "service unreachable")
  /\ address_to_gps (scenario_world t0) "1 Seymour St" <> Return None.
Proof. split; [reflexivity | discriminate]. Qed.

(** C2. Once the configuration file is read, the target location is the
    explicit argument if there is one, else the [target_latlon] of the
    configuration, else the geocoded [home_address], and the session is made
    with it as soon as the Photos library opens; when none of the three
    gives coordinates (a geocode miss included) the constructor raises and no
    session exists to filter with. *)
(** A session the constructor returns has the attributes it was given or
    found in the configuration, and an empty stored list. *)
Lemma init_returns w start stop target config_path dist s :
  __init__ w start stop target config_path dist = Return s ->
  exists cfg found,
    tomllib_load w config_path = Return cfg
    /\ s = {| config := cfg;
              home_address := cfg_home_address (get_defaults cfg);
              max_distance_km :=
                match dist with
                | Some d => d
                | None =>
                    match cfg_max_distance_km (get_defaults cfg) with
                    | Some d => d
                    | None => 2%float
                    end
                end;
              start_date := start;
              end_date :=
                match stop with Some e => e | None => yesterday w end;
              target_location := found; filtered_media := [] |}.
Proof.
  unfold __init__.
  destruct (tomllib_load w config_path) as [cfg|e]; simpl; [|discriminate].
  match goal with
  | |- mbind _ ?r = _ -> _ => destruct r as [p|e]; simpl; [|discriminate]
  end.
  destruct (PhotosDB w) as [u|e]; simpl; [|discriminate].
  intros [= <-]. eauto.
Qed.

Lemma init_opens (w : World) (s : MacPhotosFilter) :
  PhotosDB w ≫= (fun _ => Return s) = opened w s.
Proof. unfold opened. destruct (PhotosDB w); reflexivity. Qed.

Theorem init_target_location (w : World) (start : datetime)
    (stop : option datetime) (target : option latlon) (config_path : string)
    (dist : option float) (cfg : Config) :
  tomllib_load w config_path = Return cfg ->
  let d := get_defaults cfg in
  let made := __init__ w start stop target config_path dist in
  (forall p, target = Some p ->
     exists s, made = opened w s /\ target_location s = p
               /\ filtered_media s = [])
  /\ (forall p, target = None -> cfg_target_latlon d = Some p ->
        exists s, made = opened w s /\ target_location s = p
                  /\ filtered_media s = [])
  /\ (forall a p, target = None -> cfg_target_latlon d = None ->
        cfg_home_address d = Some a -> a <> "" ->
        geocode w a = Return (Some p) ->
        exists s, made = opened w s /\ target_location s = p
                  /\ filtered_media s = [])
  /\ (forall a, target = None -> cfg_target_latlon d = None ->
        cfg_home_address d = Some a -> a <> "" ->
        geocode w a = Return None ->
        made = Raise could_not_geocode)
  /\ (forall a e, target = None -> cfg_target_latlon d = None ->
        cfg_home_address d = Some a -> a <> "" ->
        geocode w a = Raise e ->
        made = Raise e)
  /\ (target = None -> cfg_target_latlon d = None ->
        cfg_home_address d = None \/ cfg_home_address d = Some "" ->
        made = Raise must_specify).
Proof.
  intros Hcfg d made. subst made d. unfold __init__. rewrite Hcfg. simpl.
  repeat split.
  - intros p ->. simpl. eexists. split; [apply init_opens|].
    split; reflexivity.
  - intros p -> ->. simpl. eexists. split; [apply init_opens|].
    split; reflexivity.
  - intros a p -> -> -> Ha Hg.
    assert (Ht : truthy_str a = true).
    { unfold truthy_str. apply negb_true_iff, String.eqb_neq, Ha. }
    rewrite Ht, address_to_gps_geocode, Hg. simpl.
    eexists. split; [apply init_opens|]. split; reflexivity.
  - intros a -> -> -> Ha Hg.
    assert (Ht : truthy_str a = true).
    { unfold truthy_str. apply negb_true_iff, String.eqb_neq, Ha. }
    rewrite Ht, address_to_gps_geocode, Hg. reflexivity.
  - intros a e -> -> -> Ha Hg.
    assert (Ht : truthy_str a = true).
    { unfold truthy_str. apply negb_true_iff, String.eqb_neq, Ha. }
    rewrite Ht, address_to_gps_geocode, Hg. reflexivity.
  - intros -> -> [-> | ->]; reflexivity.
Qed.

(** A configuration file that cannot be read ends the construction at its
    first statement. *)
Lemma init_config_unreadable w start stop target config_path dist e :
  tomllib_load w config_path = Raise e ->
  __init__ w start stop target config_path dist = Raise e.
Proof. intros H. unfold __init__. rewrite H. reflexivity. Qed.

Lemma init_target_location_witness :
  (exists s, __init__ home_world default_start_date None None "config.toml"
               None = Return s
             /\ target_location s = seymour_st /\ filtered_media s = [])
  /\ __init__ home_world default_start_date None None "elsewhere.toml" None
     = Raise could_not_geocode
  /\ __init__ home_world default_start_date None None "empty.toml" None
     = Raise must_specify.
Proof.
  split; [|split].
  - exact (proj1 (proj2 (proj2
      (init_target_location home_world default_start_date None None
         "config.toml" None home_config eq_refl))) "1 Seymour St" seymour_st
      eq_refl eq_refl eq_refl (fun H => eq_ind "1 Seymour St"
         (fun a => match a with EmptyString => False | _ => True end)
         I "" H) eq_refl).
  - apply (proj1 (proj2 (proj2 (proj2
      (init_target_location home_world default_start_date None None
         "elsewhere.toml" None elsewhere_config eq_refl)))) "Nowhere at all");
      try reflexivity; discriminate.
  - apply (proj2 (proj2 (proj2 (proj2 (proj2
      (init_target_location home_world default_start_date None None
         "empty.toml" None {| cfg_defaults := None |} eq_refl))))));
      try reflexivity. left; reflexivity.
Defined.

(** C3. [set_location_by_address] returns [False] and leaves the session as
    it is when the geocoder finds nothing; it returns [True] and stores
    exactly the pair found when the geocoder finds one, every other
    attribute keeping its value. *)
Theorem set_location_by_address_spec (w : World) (address : string)
    (s : MacPhotosFilter) :
  (geocode w address = Return None ->
     set_location_by_address w address s = (s, Return false))
  /\ (forall p, geocode w address = Return (Some p) ->
        let s' := fst (set_location_by_address w address s) in
        snd (set_location_by_address w address s) = Return true
        /\ target_location s' = p
        /\ config s' = config s /\ home_address s' = home_address s
        /\ max_distance_km s' = max_distance_km s
        /\ start_date s' = start_date s /\ end_date s' = end_date s
        /\ filtered_media s' = filtered_media s).
Proof.
  unfold set_location_by_address. rewrite address_to_gps_geocode. split.
  - intros ->. reflexivity.
  - intros p ->. simpl. repeat split.
Qed.

Lemma set_location_by_address_spec_witness :
  set_location_by_address home_world "Nowhere at all" (scenario_session t0)
    = (scenario_session t0, Return false)
  /\ snd (set_location_by_address home_world "1 Seymour St"
            (scenario_session t0)) = Return true
  /\ target_location (fst (set_location_by_address home_world "1 Seymour St"
                             (scenario_session t0))) = seymour_st.
Proof.
  split.
  - apply (proj1 (set_location_by_address_spec home_world "Nowhere at all"
                    (scenario_session t0))). reflexivity.
  - pose proof (proj2 (set_location_by_address_spec home_world "1 Seymour St"
                    (scenario_session t0)) seymour_st eq_refl) as H.
    split; [exact (proj1 H) | exact (proj1 (proj2 H))].
Defined.

(** C8. [clear_filters] empties the stored list and changes none of the
    criteria. *)
Theorem clear_filters_spec (s : MacPhotosFilter) :
  filtered_media (clear_filters s) = []
  /\ start_date (clear_filters s) = start_date s
  /\ end_date (clear_filters s) = end_date s
  /\ target_location (clear_filters s) = target_location s
  /\ max_distance_km (clear_filters s) = max_distance_km s.
Proof. repeat split. Qed.

(** ** The radius *)

Lemma after_max_distance_km w c s :
  max_distance_km (after w c s)
  = match c with
    | SetDistanceKm distance => distance
    | _ => max_distance_km s
    end.
Proof.
  destruct c; try reflexivity.
  simpl. unfold set_location_by_address.
  destruct (address_to_gps w address) as [[coords|]|e]; reflexivity.
Qed.

Lemma run_positive cs : forall s,
  positive (max_distance_km s) ->
  (forall w distance, In (w, SetDistanceKm distance) cs -> positive distance) ->
  positive (max_distance_km (run cs s)).
Proof.
  unfold run. induction cs as [|[w c] cs IH]; intros s Hs Hcs; simpl.
  - exact Hs.
  - apply IH.
    + rewrite after_max_distance_km. destruct c; try exact Hs.
      apply (Hcs w). left; reflexivity.
    + intros w' distance Hin. apply (Hcs w'). right; exact Hin.
Qed.

(** C10 (as amended). [max_distance_km] is the value supplied, unchecked:
    after construction it is the explicit argument, else the value of the
    configuration, else 2.0; [set_distance_km] stores its argument whatever
    its sign; every other call leaves it unchanged. Hence it is positive in
    every state reached from a session where it is positive by calls whose
    [set_distance_km] arguments are all positive. *)
Theorem max_distance_km_as_supplied :
  (forall w start stop target config_path dist s,
     __init__ w start stop target config_path dist = Return s ->
     max_distance_km s
     = match dist with
       | Some d => d
       | None =>
           match cfg_max_distance_km (get_defaults (config s)) with
           | Some d => d
           | None => 2%float
           end
       end)
  /\ (forall w distance s,
        max_distance_km (after w (SetDistanceKm distance) s) = distance)
  /\ (forall w c s, (forall distance, c <> SetDistanceKm distance) ->
        max_distance_km (after w c s) = max_distance_km s)
  /\ (forall cs s, positive (max_distance_km s) ->
        (forall w distance, In (w, SetDistanceKm distance) cs ->
           positive distance) ->
        positive (max_distance_km (run cs s))).
Proof.
  repeat split.
  - intros w start stop target config_path dist s Hs.
    apply init_returns in Hs as (cfg & found & _ & ->). reflexivity.
  - intros w c s Hc. rewrite after_max_distance_km.
    destruct c; try reflexivity. destruct (Hc distance); reflexivity.
  - exact run_positive.
Qed.

Lemma max_distance_km_as_supplied_witness :
  positive (max_distance_km
    (run [(scenario_world t0, FilterMedia "all");
          (scenario_world t0, SetDistanceKm 0.2%float);
          (home_world, SetLocationByAddress "1 Seymour St");
          (scenario_world t0, ClearFilters)]
       (scenario_session t0))).
Proof.
  apply (proj2 (proj2 (proj2 max_distance_km_as_supplied))).
  - reflexivity.
  - intros w distance [H | [H | [H | [H | []]]]];
      try discriminate H.
    injection H as _ <-. reflexivity.
Defined.

(** A session constructed with the radius 10 km of the configuration is taken
    by [set_distance_km(-1.0)] to a state where [max_distance_km <= 0]. *)
Lemma set_distance_km_accepts_negative :
  exists s,
    __init__ (scenario_world t0) (t0 - timedelta_days 3) (Some t0) None
      "config.toml" None = Return s
    /\ positive (max_distance_km s)
    /\ PrimFloat.leb
         (max_distance_km
            (run [(scenario_world t0, SetDistanceKm (-1)%float)] s))
         0%float = true.
Proof.
  exists (scenario_session t0). repeat split.
Qed.

(** ** Thumbnails *)

Section ThumbnailLoop.
Variables (w : World) (out_dir : string) (thumb_size : Z * Z)
  (max_media : Z).

Lemma loop_visits_prefix l : forall count,
  List.map fst (thumbnail_loop w out_dir thumb_size max_media count l) `prefix_of` l.
Proof.
  induction l as [|media rest IH]; intros count; simpl.
  - apply prefix_nil.
  - destruct (max_media <=? count); [apply prefix_nil|].
    destruct (make_thumbnail w media thumb_size out_dir
                (thumb_name count media)); simpl;
      apply prefix_cons, IH.
Qed.

Lemma loop_names l : forall count (k : nat) media thumb_file,
  saved (thumbnail_loop w out_dir thumb_size max_media count l) !! k = Some (media, thumb_file) ->
  thumb_file = thumb_name (count + Z.of_nat k) media.
Proof.
  induction l as [|m rest IH]; intros count k media thumb_file; simpl.
  - discriminate.
  - destruct (max_media <=? count); [discriminate|].
    destruct (make_thumbnail w m thumb_size out_dir (thumb_name count m));
      simpl.
    + apply IH.
    + destruct k as [|k]; simpl.
      * intros [= <- <-]. f_equal. lia.
      * intros H. apply IH in H. rewrite H. f_equal. lia.
Qed.

Lemma loop_prints l : forall count media line,
  In (media, Printed line) (thumbnail_loop w out_dir thumb_size max_media count l) ->
  exists n e,
    make_thumbnail w media thumb_size out_dir (thumb_name n media) = Some e
    /\ line = thumb_error_line media e.
Proof.
  induction l as [|m rest IH]; intros count media line; simpl.
  - intros [].
  - destruct (max_media <=? count); [intros []|].
    destruct (make_thumbnail w m thumb_size out_dir (thumb_name count m))
      as [e|] eqn:Hm; simpl.
    + intros [[= <- <-] | Hin]; [eauto | exact (IH _ _ _ Hin)].
    + intros [[=] | Hin]. exact (IH _ _ _ Hin).
Qed.

Lemma loop_saves_at_most l : forall count,
  count <= max_media ->
  count + Z.of_nat (length (saved (thumbnail_loop w out_dir thumb_size max_media count l))) <= max_media.
Proof.
  induction l as [|m rest IH]; intros count Hc; simpl.
  - lia.
  - destruct (Z.leb_spec max_media count); simpl; [lia|].
    destruct (make_thumbnail w m thumb_size out_dir (thumb_name count m));
      simpl.
    + apply IH, Hc.
    + specialize (IH (count + 1)). lia.
Qed.

Lemma loop_stops_only_at_max l : forall count,
  length (thumbnail_loop w out_dir thumb_size max_media count l) = length l
  \/ max_media <= count + Z.of_nat (length (saved (thumbnail_loop w out_dir thumb_size max_media count l))).
Proof.
  induction l as [|m rest IH]; intros count; simpl.
  - left; reflexivity.
  - destruct (Z.leb_spec max_media count); simpl; [right; lia|].
    destruct (make_thumbnail w m thumb_size out_dir (thumb_name count m));
      simpl.
    + destruct (IH count) as [-> | Hmax]; [left; reflexivity | right; lia].
    + destruct (IH (count + 1)) as [-> | Hmax];
        [left; reflexivity | right; lia].
Qed.
Lemma loop_entry l : forall count (i : nat) media outcome,
  thumbnail_loop w out_dir thumb_size max_media count l !! i
    = Some (media, outcome) ->
  l !! i = Some media
  /\ count
       + Z.of_nat (length (saved (take i
           (thumbnail_loop w out_dir thumb_size max_media count l))))
     < max_media
  /\ match make_thumbnail w media thumb_size out_dir
             (thumb_name
                (count
                 + Z.of_nat (length (saved (take i
                     (thumbnail_loop w out_dir thumb_size max_media
                        count l)))))
                media) with
     | None =>
         outcome
         = Saved (thumb_name
                    (count
                     + Z.of_nat (length (saved (take i
                         (thumbnail_loop w out_dir thumb_size max_media
                            count l)))))
                    media)
     | Some e => outcome = Printed (thumb_error_line media e)
     end.
Proof.
  induction l as [|m rest IH]; intros count i media outcome; simpl.
  - discriminate.
  - destruct (Z.leb_spec max_media count) as [Hle|Hlt]; [discriminate|].
    destruct (make_thumbnail w m thumb_size out_dir (thumb_name count m))
      as [e|] eqn:Hm; destruct i as [|i]; simpl.
    + intros [= <- <-]. rewrite Z.add_0_r, Hm. auto.
    + intros H. exact (IH count i media outcome H).
    + intros [= <- <-]. rewrite Z.add_0_r, Hm. auto.
    + intros H. destruct (IH (count + 1) i media outcome H) as (H1 & H2 & H3).
      replace (count + Z.of_nat (S (length (saved (take i
                 (thumbnail_loop w out_dir thumb_size max_media (count + 1)
                    rest))))))
        with (count + 1 + Z.of_nat (length (saved (take i
                 (thumbnail_loop w out_dir thumb_size max_media (count + 1)
                    rest))))) by lia.
      auto.
Qed.
End ThumbnailLoop.

Lemma saved_at_most_visited (tr : list (PhotoInfo * thumb_outcome)) :
  (length (saved tr) <= length tr)%nat.
Proof. induction tr as [|[m [f|l]] tr IH]; simpl; lia. Qed.

(** C6. [save_thumbnails] visits the stored list in its order. For each
    record visited it tries the thumbnail under the name
    [thumb_k_<filename>], k being the number of thumbnails written so far:
    on success the record is written under that name, on failure a line
    with its file name and the cause is printed, the record takes no number
    and the loop goes on with the next one. The loop visits every record
    unless [max_media] thumbnails have been written, and never writes more.
    The directory is made first; if that fails the call raises and visits
    nothing. *)
Theorem save_thumbnails_spec (w : World) (out_dir : string)
    (thumb_size : Z * Z) (max_media : Z) (s : MacPhotosFilter) :
  let tr := fst (save_thumbnails w out_dir thumb_size max_media s) in
  List.map fst tr `prefix_of` filtered_media s
  /\ (forall (i : nat) media outcome,
        tr !! i = Some (media, outcome) ->
        let k := Z.of_nat (length (saved (take i tr))) in
        filtered_media s !! i = Some media
        /\ k < max_media
        /\ match make_thumbnail w media thumb_size out_dir
                   ("thumb_" ++ str_int k ++ "_" ++ filename media) with
           | None =>
               outcome
               = Saved ("thumb_" ++ str_int k ++ "_" ++ filename media)
           | Some e =>
               outcome
               = Printed ("Error creating thumbnail for " ++ filename media
                          ++ ": " ++ e)
           end)
  /\ (forall media line, In (media, Printed line) tr ->
        exists n e,
          make_thumbnail w media thumb_size out_dir (thumb_name n media)
            = Some e
          /\ line = "Error creating thumbnail for " ++ filename media
                    ++ ": " ++ e)
  /\ (forall (k : nat) media thumb_file,
        saved tr !! k = Some (media, thumb_file) ->
        thumb_file = "thumb_" ++ str_int (Z.of_nat k) ++ "_" ++ filename media)
  /\ (0 <= max_media -> Z.of_nat (length (saved tr)) <= max_media)
  /\ (forall u, mkdir w out_dir = Return u ->
        snd (save_thumbnails w out_dir thumb_size max_media s) = Return tt
        /\ (List.map fst tr = filtered_media s
            \/ max_media <= Z.of_nat (length (saved tr)))
        /\ (Z.of_nat (length (filtered_media s)) <= max_media ->
            List.map fst tr = filtered_media s))
  /\ (forall e, mkdir w out_dir = Raise e ->
        save_thumbnails w out_dir thumb_size max_media s = ([], Raise e)).
Proof.
  intros tr. subst tr. unfold save_thumbnails.
  destruct (mkdir w out_dir) as [u|e]; cbn [fst snd].
  - pose proof (loop_visits_prefix w out_dir thumb_size max_media
                  (filtered_media s) 0) as Hpre.
    pose proof (loop_stops_only_at_max w out_dir thumb_size max_media
                  (filtered_media s) 0) as Hstop.
    assert (Hall : length (thumbnail_loop w out_dir thumb_size max_media 0
                             (filtered_media s)) = length (filtered_media s) ->
                   List.map fst (thumbnail_loop w out_dir thumb_size max_media
                                   0 (filtered_media s)) = filtered_media s).
    { intros Hlen. apply prefix_length_eq; [exact Hpre|].
      rewrite length_map, Hlen. reflexivity. }
    split; [exact Hpre|]. split.
    { intros i media outcome H.
      exact (loop_entry w out_dir thumb_size max_media (filtered_media s) 0
               i media outcome H). }
    split; [apply loop_prints|]. split.
    { intros k media thumb_file H. apply loop_names in H. exact H. }
    split.
    { intros Hmax.
      pose proof (loop_saves_at_most w out_dir thumb_size max_media
                    (filtered_media s) 0 Hmax). lia. }
    split; [|discriminate].
    intros _ _. split; [reflexivity|]. split.
    { destruct Hstop as [Hlen | Hmax]; [left; auto | right; lia]. }
    intros Hfew. destruct Hstop as [Hlen | Hmax]; [auto|].
    (* [max_media] thumbnails written out of at most [max_media] records *)
    apply Hall. apply prefix_length in Hpre. rewrite length_map in Hpre.
    pose proof (saved_at_most_visited
                  (thumbnail_loop w out_dir thumb_size max_media 0
                     (filtered_media s))).
    lia.
  - split; [apply prefix_nil|]. split; [intros i media outcome; discriminate|].
    split; [intros media line []|]. split; [intros k media f; discriminate|].
    split; [simpl; lia|]. split; [discriminate|].
    intros e' [= ->]. reflexivity.
Qed.

(** Four records, the first a movie PIL cannot decode, and room for two
    thumbnails: the movie is reported and takes no number, the next two
    records are written as number 0 and number 1, the fourth is not
    visited. *)
Example save_thumbnails_movie_first :
  save_thumbnails (stills_world t0) "thumbs" default_thumb_size 2
    (fst (filter_media (stills_world t0) "all" (scenario_session t0)))
  = ([(rec_c t0,
       Printed "Error creating thumbnail for test.jpg: cannot identify image file");
      (rec_a t0, Saved "thumb_0_test.jpg");
      (rec_b t0, Saved "thumb_1_test.jpg")],
     Return tt).
Proof. reflexivity. Qed.

(** When the directory cannot be made nothing is visited. *)
Example save_thumbnails_directory_taken :
  save_thumbnails (taken_world t0) "taken" default_thumb_size 2
    (fst (filter_media (taken_world t0) "all" (scenario_session t0)))
  = ([], Raise (OSError "File exists: 'taken'")).
Proof. reflexivity. Qed.

Lemma save_thumbnails_spec_witness :
  (filtered_media
     (fst (filter_media (stills_world t0) "all" (scenario_session t0)))
     !! 0%nat = Some (rec_c t0)
   /\ 0 < 2
   /\ Printed "Error creating thumbnail for test.jpg: cannot identify image file"
      = Printed ("Error creating thumbnail for " ++ filename (rec_c t0)
                 ++ ": " ++ "cannot identify image file"))
  /\ (filtered_media
        (fst (filter_media (stills_world t0) "all" (scenario_session t0)))
        !! 1%nat = Some (rec_a t0)
      /\ 0 < 2
      /\ Saved "thumb_0_test.jpg"
         = Saved ("thumb_" ++ str_int 0 ++ "_" ++ filename (rec_a t0)))
  /\ snd (save_thumbnails (stills_world t0) "thumbs" default_thumb_size 2
            (fst (filter_media (stills_world t0) "all"
                    (scenario_session t0)))) = Return tt.
Proof.
  pose proof (save_thumbnails_spec (stills_world t0) "thumbs"
                default_thumb_size 2
                (fst (filter_media (stills_world t0) "all"
                        (scenario_session t0)))) as (_ & Hentry & _ & _ & _ & Hdir & _).
  split; [|split].
  - exact (Hentry 0%nat (rec_c t0)
             (Printed "Error creating thumbnail for test.jpg: cannot identify image file")
             eq_refl).
  - exact (Hentry 1%nat (rec_a t0) (Saved "thumb_0_test.jpg") eq_refl).
  - exact (proj1 (Hdir tt eq_refl)).
Defined.

(** ** The list of paths *)










(** * Further properties of the class *)

(** ** More on filtering *)

Lemma filter_sublist_implied {A : Type} (f g : A -> bool) (l : list A) :
  (forall x, f x = true -> g x = true) ->
  List.filter f l `sublist_of` List.filter g l.
Proof.
  intros Hfg. induction l as [|x l IH]; simpl; [constructor|].
  destruct (f x) eqn:Hf.
  - rewrite (Hfg x Hf). by apply sublist_skip.
  - destruct (g x); [by apply sublist_cons | exact IH].
Qed.

Lemma filter_none {A : Type} (f : A -> bool) (l : list A) :
  (forall x, f x = false) -> List.filter f l = [].
Proof.
  intros Hf. induction l as [|x l IH]; simpl; [reflexivity|].
  rewrite Hf. exact IH.
Qed.

Lemma filter_twice {A : Type} (f g : A -> bool) (l : list A) :
  List.filter f (List.filter g l) = List.filter (fun x => g x && f x) l.
Proof.
  induction l as [|x l IH]; simpl; [reflexivity|].
  destruct (g x); simpl; [destruct (f x)|]; rewrite IH; reflexivity.
Qed.

(** X1. A [media_type] other than ["all"], ["photo"] and ["video"] raises
    nothing: the result is the empty list, and the empty list is stored. *)
Theorem filter_media_unknown_type (w : World) (media_type : string)
    (s : MacPhotosFilter) :
  media_type <> "all" -> media_type <> "photo" -> media_type <> "video" ->
  snd (filter_media w media_type s) = []
  /\ filtered_media (fst (filter_media w media_type s)) = [].
Proof.
  intros Hall Hphoto Hvideo.
  assert (H : snd (filter_media w media_type s) = []).
  { rewrite filter_media_result. apply filter_none. intros p.
    unfold date_and_type_ok.
    apply String.eqb_neq in Hall, Hphoto, Hvideo.
    rewrite Hall, Hphoto, Hvideo. simpl.
    rewrite andb_false_r. reflexivity. }
  split; [exact H|]. rewrite filter_media_stores. exact H.
Qed.

Lemma filter_media_unknown_type_witness :
  snd (filter_media (scenario_world t0) "Photo" (scenario_session t0)) = []
  /\ filtered_media
       (fst (filter_media (scenario_world t0) "Photo" (scenario_session t0)))
     = [].
Proof.
  apply (filter_media_unknown_type (scenario_world t0) "Photo"
           (scenario_session t0)); discriminate.
Defined.

(** X2. The result for ["photo"] is the result for ["all"] restricted to the
    records with [isphoto], the result for ["video"] the one restricted to
    the records with [ismovie], both in the same order; whatever the type
    asked, the result is a subsequence of the result for ["all"]. *)
Theorem filter_media_types_refine_all (w : World) (s : MacPhotosFilter) :
  snd (filter_media w "photo" s)
    = List.filter isphoto (snd (filter_media w "all" s))
  /\ snd (filter_media w "video" s)
     = List.filter ismovie (snd (filter_media w "all" s))
  /\ (forall media_type,
        snd (filter_media w media_type s)
          `sublist_of` snd (filter_media w "all" s)).
Proof.
  rewrite !filter_media_result, !filter_twice. split; [|split].
  - apply filter_ext. intros p. unfold date_and_type_ok. simpl.
    destruct ((start_date s <=? date p) && (date p <=? end_date s)),
      (isphoto p), (location_ok w s p); reflexivity.
  - apply filter_ext. intros p. unfold date_and_type_ok. simpl.
    destruct ((start_date s <=? date p) && (date p <=? end_date s)),
      (ismovie p), (location_ok w s p); reflexivity.
  - intros media_type. rewrite filter_media_result.
    apply filter_sublist_implied. intros p.
    unfold date_and_type_ok. simpl. intros H.
    apply andb_true_iff in H as [H Hl]. apply andb_true_iff in H as [Hd _].
    rewrite Hd, Hl. reflexivity.
Qed.

(** X3. Widening the date window never loses a record: with the same target
    and radius, the result for a window is a subsequence of the result for
    any window that contains it. *)
Theorem filter_media_window_monotone (w : World) (media_type : string)
    (s1 s2 : MacPhotosFilter) :
  start_date s2 <= start_date s1 -> end_date s1 <= end_date s2 ->
  target_location s1 = target_location s2 ->
  max_distance_km s1 = max_distance_km s2 ->
  snd (filter_media w media_type s1)
    `sublist_of` snd (filter_media w media_type s2).
Proof.
  intros Hs He Ht Hm. rewrite !filter_media_result.
  apply filter_sublist_implied. intros p.
  unfold date_and_type_ok, location_ok. rewrite Ht, Hm.
  rewrite !andb_true_iff, !Z.leb_le. intros [[[H1 H2] Hty] Hloc].
  repeat split; try assumption; lia.
Qed.

Lemma filter_media_window_monotone_witness :
  snd (filter_media (scenario_world t0) "all"
         (set_date_range (scenario_world t0) (t0 - timedelta_days 1)
            (Some t0) (scenario_session t0)))
    `sublist_of`
  snd (filter_media (scenario_world t0) "all" (scenario_session t0)).
Proof.
  apply (filter_media_window_monotone (scenario_world t0) "all"
           (set_date_range (scenario_world t0) (t0 - timedelta_days 1)
              (Some t0) (scenario_session t0))
           (scenario_session t0)); vm_compute; congruence.
Defined.

(** X4. A window whose end lies before its start selects nothing, whatever
    the library holds. *)
Theorem filter_media_inverted_window (w : World) (media_type : string)
    (s : MacPhotosFilter) :
  end_date s < start_date s ->
  snd (filter_media w media_type s) = [].
Proof.
  intros Hinv. rewrite filter_media_result. apply filter_none. intros p.
  unfold date_and_type_ok.
  destruct (Z.leb_spec (start_date s) (date p)),
    (Z.leb_spec (date p) (end_date s)); simpl; try reflexivity. lia.
Qed.

Lemma filter_media_inverted_window_witness :
  snd (filter_media (scenario_world t0) "all"
         (set_date_range (scenario_world t0) t0 (Some (t0 - timedelta_days 3))
            (scenario_session t0))) = [].
Proof.
  apply (filter_media_inverted_window (scenario_world t0) "all"
           (set_date_range (scenario_world t0) t0
              (Some (t0 - timedelta_days 3)) (scenario_session t0))).
  reflexivity.
Defined.

Lemma filter_media_in_window w media_type s p :
  In p (snd (filter_media w media_type s)) ->
  start_date s <= date p <= end_date s.
Proof.
  rewrite filter_media_result, filter_In, andb_true_iff,
    date_and_type_ok_spec.
  tauto.
Qed.



(** ** Float comparison *)

Lemma SFleb_transitive a b c :
  SFleb a b = true -> SFleb b c = true -> SFleb a c = true.
Proof.
  unfold SFleb, SFcompare.
  destruct a as [sa|sa| |sa ma ea], b as [sb|sb| |sb mb eb],
    c as [sc|sc| |sc mc ec];
    try destruct sa; try destruct sb; try destruct sc; simpl;
    try reflexivity; try discriminate; try (intros; assumption).
  all: fold (Pos.compare ma mb); fold (Pos.compare mb mc);
    fold (Pos.compare ma mc).
  all: destruct (Z.compare_spec ea eb), (Z.compare_spec eb ec),
    (Z.compare_spec ea ec);
    try lia; try reflexivity; try discriminate; try (intros; assumption).
  all: destruct (Pos.compare_spec ma mb), (Pos.compare_spec mb mc),
    (Pos.compare_spec ma mc);
    simpl; try lia; try reflexivity; try discriminate.
Qed.

Lemma float_leb_transitive (x y z : float) :
  PrimFloat.leb x y = true -> PrimFloat.leb y z = true ->
  PrimFloat.leb x z = true.
Proof. rewrite !leb_spec. apply SFleb_transitive. Qed.

Lemma float_leb_nan_r (x : float) : PrimFloat.leb x nan = false.
Proof.
  rewrite leb_spec. change (Prim2SF nan) with S754_nan.
  unfold SFleb, SFcompare.
  destruct (Prim2SF x) as [sx|sx| |sx mx ex]; reflexivity.
Qed.

(** X6. Enlarging the radius never loses a record: with the same window and
    target, the result for a radius is a subsequence of the result for any
    radius at least as large. *)
Theorem filter_media_radius_monotone (w : World) (media_type : string)
    (s1 s2 : MacPhotosFilter) :
  start_date s1 = start_date s2 -> end_date s1 = end_date s2 ->
  target_location s1 = target_location s2 ->
  PrimFloat.leb (max_distance_km s1) (max_distance_km s2) = true ->
  snd (filter_media w media_type s1)
    `sublist_of` snd (filter_media w media_type s2).
Proof.
  intros Hs He Ht Hm. rewrite !filter_media_result.
  apply filter_sublist_implied. intros p.
  unfold date_and_type_ok, location_ok. rewrite Hs, He, Ht.
  intros H. apply andb_true_iff in H as [-> Hloc]. simpl.
  destruct (location p) as [[lat lon]|]; [|discriminate].
  exact (float_leb_transitive _ _ _ Hloc Hm).
Qed.

Lemma filter_media_radius_monotone_witness :
  snd (filter_media (scenario_world t0) "all"
         (set_distance_km 0.2%float (scenario_session t0)))
    `sublist_of`
  snd (filter_media (scenario_world t0) "all" (scenario_session t0)).
Proof.
  apply (filter_media_radius_monotone (scenario_world t0) "all"
           (set_distance_km 0.2%float (scenario_session t0))
           (scenario_session t0)); reflexivity.
Defined.

(** X7. A radius that is not a number selects nothing: after
    [set_distance_km(float("nan"))] every result is empty, whatever the
    library holds and however near its records are. *)
Theorem filter_media_nan_radius (w w' : World) (media_type : string)
    (s : MacPhotosFilter) :
  snd (filter_media w media_type (after w' (SetDistanceKm nan) s)) = [].
Proof.
  rewrite filter_media_result. apply filter_none. intros p.
  unfold location_ok. simpl.
  destruct (location p) as [[lat lon]|].
  - rewrite float_leb_nan_r. apply andb_false_r.
  - apply andb_false_r.
Qed.

(** ** Changing the criteria *)

Lemma after_keeps_stored_list w c s :
  (forall media_type, c <> FilterMedia media_type) -> c <> ClearFilters ->
  filtered_media (after w c s) = filtered_media s.
Proof.
  intros Hf Hc. destruct c; try reflexivity.
  - simpl. unfold set_location_by_address.
    destruct (address_to_gps w address) as [[coords|]|e]; reflexivity.
  - destruct (Hf media_type). reflexivity.
  - destruct Hc. reflexivity.
Qed.

(** X8. Only [filter_media] and [clear_filters] touch the stored list: after
    any other call, a change of window, target or radius included, the list
    is the one of the last [filter_media], not re-filtered, and the listing,
    the thumbnails, the export and the file of paths are those of that
    list. *)
Theorem stored_list_changes_only_by_filter (w : World) (c : call)
    (s : MacPhotosFilter) :
  (forall media_type, c <> FilterMedia media_type) -> c <> ClearFilters ->
  filtered_media (after w c s) = filtered_media s
  /\ list_media_info (after w c s) = list_media_info s
  /\ (forall w' out_dir thumb_size max_media,
        save_thumbnails w' out_dir thumb_size max_media (after w c s)
        = save_thumbnails w' out_dir thumb_size max_media s)
  /\ (forall w' export_dir original edited,
        export_filtered_media w' export_dir original edited (after w c s)
        = export_filtered_media w' export_dir original edited s)
  /\ (forall filepath fs,
        save_filtered_media_paths filepath (after w c s) fs
        = save_filtered_media_paths filepath s fs).
Proof.
  intros Hf Hc. pose proof (after_keeps_stored_list w c s Hf Hc) as H.
  unfold list_media_info, save_thumbnails, export_filtered_media,
    save_filtered_media_paths.
  rewrite H. repeat split.
Qed.

Lemma stored_list_changes_only_by_filter_witness :
  filtered_media
    (after (scenario_world t0) (SetDistanceKm 0.2%float)
       (fst (filter_media (scenario_world t0) "all" (scenario_session t0))))
  = filtered_media
      (fst (filter_media (scenario_world t0) "all" (scenario_session t0))).
Proof.
  apply (stored_list_changes_only_by_filter (scenario_world t0)
           (SetDistanceKm 0.2%float)
           (fst (filter_media (scenario_world t0) "all"
                   (scenario_session t0)))); discriminate.
Defined.

(** X9. With an explicit target location, or with [target_latlon] in the
    configuration, the constructor does not depend on the geocoder: two
    worlds that agree on the configuration file, on the clock and on whether
    the Photos library opens construct the same session, or fail alike. *)
Theorem init_without_geocoder (w1 w2 : World) (start : datetime)
    (stop : option datetime) (target : option latlon) (config_path : string)
    (dist : option float) :
  tomllib_load w1 config_path = tomllib_load w2 config_path ->
  now w1 = now w2 ->
  PhotosDB w1 = PhotosDB w2 ->
  (is_Some target
   \/ exists cfg, tomllib_load w1 config_path = Return cfg
                  /\ is_Some (cfg_target_latlon (get_defaults cfg))) ->
  __init__ w1 start stop target config_path dist
  = __init__ w2 start stop target config_path dist.
Proof.
  intros Hcfg Hnow Hdb Hsrc. unfold __init__, yesterday.
  rewrite <- Hcfg, <- Hnow, <- Hdb.
  destruct (tomllib_load w1 config_path) as [cfg|e]; simpl; [|reflexivity].
  destruct target as [p|]; [reflexivity|].
  destruct Hsrc as [[p Hp] | (cfg' & Heq & [q Hq])]; [discriminate|].
  injection Heq as <-. rewrite Hq. reflexivity.
Qed.

Lemma init_without_geocoder_witness :
  __init__ (scenario_world t0) default_start_date None None "config.toml" None
  = __init__ (nowhere_world t0) default_start_date None None "config.toml"
      None.
Proof.
  apply (init_without_geocoder (scenario_world t0) (nowhere_world t0));
    [reflexivity | reflexivity | reflexivity |].
  right. exists default_config. split; [reflexivity|].
  exists target_a. reflexivity.
Defined.

(** X10. When the geocoder raises, [set_location_by_address] raises the same
    exception and has assigned nothing: the session is as it was. *)
Theorem set_location_by_address_raises (w : World) (address : string)
    (s : MacPhotosFilter) (e : exception) :
  geocode w address = Raise e ->
  set_location_by_address w address s = (s, Raise e)
  /\ after w (SetLocationByAddress address) s = s.
Proof.
  intros Hg. unfold after, set_location_by_address.
  rewrite address_to_gps_geocode, Hg. split; reflexivity.
Qed.

Lemma set_location_by_address_raises_witness :
  set_location_by_address (scenario_world t0) "1 Seymour St"
    (scenario_session t0)
  = (scenario_session t0,
     Raise (GeocoderServiceError "service unreachable"))
  /\ after (scenario_world t0) (SetLocationByAddress "1 Seymour St")
       (scenario_session t0) = scenario_session t0.
Proof.
  apply (set_location_by_address_raises (scenario_world t0) "1 Seymour St"
           (scenario_session t0)).
  reflexivity.
Defined.

(** ** The listing *)

Lemma filter_media_locations w media_type s p :
  In p (snd (filter_media w media_type s)) -> is_Some (location p).
Proof.
  rewrite filter_media_result, filter_In, andb_true_iff, location_ok_spec.
  intros (_ & _ & lat & lon & Hloc & _). rewrite Hloc. eauto.
Qed.

(** X11. [list_media_info] has one entry per stored record, in the stored
    order; the entry is labelled ["photo"] exactly when the record has
    [isphoto], and ["video"] in every other case, also for a record that is
    no movie either. *)
Theorem list_media_info_labels (s : MacPhotosFilter) :
  length (list_media_info s) = length (filtered_media s)
  /\ List.map info_path (list_media_info s) = List.map path (filtered_media s)
  /\ (forall (i : nat) media,
        filtered_media s !! i = Some media ->
        exists info,
          list_media_info s !! i = Some info
          /\ info_filename info = filename media
          /\ (isphoto media = true -> info_type info = "photo")
          /\ (isphoto media = false -> info_type info = "video")).
Proof.
  unfold list_media_info. split; [apply length_map|]. split.
  - rewrite List.map_map. reflexivity.
  - intros i media Hi. eexists. split.
    + rewrite list_lookup_fmap, Hi. reflexivity.
    + simpl. repeat split; intros ->; reflexivity.
Qed.

Lemma list_media_info_labels_witness :
  exists info,
    list_media_info
      (fst (filter_media (scenario_world t0) "all" (scenario_session t0)))
      !! 2%nat = Some info
    /\ info_filename info = filename (rec_c t0)
    /\ (isphoto (rec_c t0) = true -> info_type info = "photo")
    /\ (isphoto (rec_c t0) = false -> info_type info = "video").
Proof.
  apply (proj2 (proj2 (list_media_info_labels
    (fst (filter_media (scenario_world t0) "all" (scenario_session t0)))))
    2%nat (rec_c t0)).
  reflexivity.
Defined.

(** X12. Right after [filter_media], every entry of [list_media_info] has a
    location and a date inside the window; after [filter_media("photo")]
    every entry is labelled ["photo"]. *)
Theorem list_media_info_after_filter (w : World) (s : MacPhotosFilter) :
  (forall media_type info,
     In info (list_media_info (fst (filter_media w media_type s))) ->
     is_Some (info_location info)
     /\ start_date s <= info_date info <= end_date s)
  /\ (forall info,
        In info (list_media_info (fst (filter_media w "photo" s))) ->
        info_type info = "photo").
Proof.
  split.
  - intros media_type info Hin. unfold list_media_info in Hin.
    apply in_map_iff in Hin as (media & <- & Hm). simpl.
    rewrite filter_media_stores in Hm. split.
    + exact (filter_media_locations _ _ _ _ Hm).
    + exact (filter_media_in_window _ _ _ _ Hm).
  - intros info Hin. unfold list_media_info in Hin.
    apply in_map_iff in Hin as (media & <- & Hm). simpl.
    rewrite filter_media_stores, filter_media_result, filter_In in Hm.
    destruct Hm as [_ Hm]. apply andb_true_iff in Hm as [Hm _].
    unfold date_and_type_ok in Hm. apply andb_true_iff in Hm as [_ Hp].
    destruct (isphoto media); [reflexivity | discriminate Hp].
Qed.

Lemma list_media_info_after_filter_witness :
  info_type
    {| info_filename := "test.jpg"; info_date := t0 - timedelta_days 1;
       info_location := Some target_a; info_path := "/tmp/test.jpg";
       info_type := "photo" |} = "photo".
Proof.
  apply (proj2 (list_media_info_after_filter (scenario_world t0)
                  (scenario_session t0))).
  left. reflexivity.
Defined.

(** ** Export *)

Lemma export_calls_return w export_dir original edited l :
  snd (export_calls w export_dir original edited l) = Return tt
  <-> Forall (fun media => exists u,
                export w media export_dir original edited = Return u) l.
Proof.
  induction l as [|media rest IH]; simpl.
  - split; [constructor | reflexivity].
  - destruct (export w media export_dir original edited) as [u|e] eqn:He.
    + destruct (export_calls w export_dir original edited rest)
        as [called outcome]. simpl in *. rewrite IH. split.
      * intros H. constructor; [eauto | exact H].
      * intros H. inversion H; assumption.
    + simpl. split; [discriminate|].
      intros H. inversion H as [|? ? [u Hu] _]. congruence.
Qed.

Lemma export_calls_all w export_dir original edited l :
  snd (export_calls w export_dir original edited l) = Return tt ->
  fst (export_calls w export_dir original edited l) = l.
Proof.
  induction l as [|media rest IH]; simpl; [reflexivity|].
  destruct (export w media export_dir original edited) as [u|e];
    [|discriminate].
  destruct (export_calls w export_dir original edited rest)
    as [called outcome]. simpl in *. intros H. rewrite (IH H). reflexivity.
Qed.

Lemma export_calls_raise w export_dir original edited l e :
  snd (export_calls w export_dir original edited l) = Raise e ->
  exists before media rest,
    l = (before ++ media :: rest)%list
    /\ Forall (fun m => exists u,
                 export w m export_dir original edited = Return u) before
    /\ export w media export_dir original edited = Raise e
    /\ fst (export_calls w export_dir original edited l)
       = (before ++ [media])%list.
Proof.
  induction l as [|media rest IH]; simpl; [discriminate|].
  destruct (export w media export_dir original edited) as [u|e'] eqn:He.
  - destruct (export_calls w export_dir original edited rest)
      as [called outcome]. simpl in *. intros Hout.
    destruct (IH Hout) as (before & m & rest' & -> & Hb & Hm & Hc).
    exists (media :: before), m, rest'. repeat split.
    + constructor; [eauto | exact Hb].
    + exact Hm.
    + simpl. rewrite Hc. reflexivity.
  - simpl. intros [= ->]. exists [], media, rest. repeat split.
    + constructor.
    + exact He.
Qed.

(** X13. [export_filtered_media] makes the directory first; if that raises,
    the call raises that exception and exports nothing. Otherwise it exports
    the stored records in order to [str(Path(export_dir))]: it returns when
    every export returns, all records being exported then; otherwise it
    raises the exception of the first record whose export fails, having
    exported the records before it and none after it. *)
Theorem export_filtered_media_first_failure (w : World) (export_dir : string)
    (original edited : bool) (s : MacPhotosFilter) :
  let out := export_filtered_media w export_dir original edited s in
  let dir := str_Path w export_dir in
  (forall e, mkdir w export_dir = Raise e -> out = ([], Raise e))
  /\ (forall u, mkdir w export_dir = Return u ->
        (snd out = Return tt
         <-> Forall (fun media => exists u',
                       export w media dir original edited = Return u')
               (filtered_media s))
        /\ (snd out = Return tt -> fst out = filtered_media s)
        /\ (forall e, snd out = Raise e ->
            exists before media rest,
              filtered_media s = (before ++ media :: rest)%list
              /\ Forall (fun m => exists u',
                           export w m dir original edited = Return u')
                   before
              /\ export w media dir original edited = Raise e
              /\ fst out = (before ++ [media])%list)).
Proof.
  intros out dir. subst out dir. unfold export_filtered_media.
  destruct (mkdir w export_dir) as [u|e]; split.
  - discriminate.
  - intros _ _. split; [apply export_calls_return|].
    split; [apply export_calls_all|].
    intros e. apply export_calls_raise.
  - intros e' [= ->]. reflexivity.
  - discriminate.
Qed.

Lemma export_filtered_media_first_failure_witness :
  (exists before media rest,
     filtered_media
       (fst (filter_media (no_movie_export_world t0) "all"
               (scenario_session t0)))
     = (before ++ media :: rest)%list
     /\ Forall (fun m => exists u,
                  export (no_movie_export_world t0) m
                    (str_Path (no_movie_export_world t0) "out") true false
                  = Return u) before
     /\ export (no_movie_export_world t0) media
          (str_Path (no_movie_export_world t0) "out") true false
        = Raise (OSError "export failed")
     /\ fst (export_filtered_media (no_movie_export_world t0) "out" true false
               (fst (filter_media (no_movie_export_world t0) "all"
                       (scenario_session t0))))
        = (before ++ [media])%list)
  /\ export_filtered_media (taken_world t0) "taken" true false
       (fst (filter_media (taken_world t0) "all" (scenario_session t0)))
     = ([], Raise (OSError "File exists: 'taken'")).
Proof.
  split.
  - apply (proj2 (proj2 (proj2
      (export_filtered_media_first_failure (no_movie_export_world t0) "out"
         true false
         (fst (filter_media (no_movie_export_world t0) "all"
                 (scenario_session t0)))) tt eq_refl))).
    reflexivity.
  - apply (proj1
      (export_filtered_media_first_failure (taken_world t0) "taken"
         true false
         (fst (filter_media (taken_world t0) "all" (scenario_session t0))))).
    reflexivity.
Defined.

(** The photo before the movie is exported, the movie fails, the photo
    after it is never reached. *)
Example export_stops_at_the_movie :
  export_filtered_media (no_movie_export_world t0) "out" true false
    (fst (filter_media (no_movie_export_world t0) "all"
            (scenario_session t0)))
  = ([rec_a t0; rec_c t0], Raise (OSError "export failed")).
Proof. reflexivity. Qed.

(** ** Thumbnail names *)

Lemma free_of_underscore_digits (d : Decimal.uint) :
  free_of "_" (NilEmpty.string_of_uint d) = true.
Proof. induction d; simpl; auto. Qed.

Lemma free_of_underscore_str_int (n : Z) : free_of "_" (str_int n) = true.
Proof.
  unfold str_int.
  destruct (Z.to_int n) as [d|d]; simpl; destruct d; simpl;
    try reflexivity; apply free_of_underscore_digits.
Qed.

Lemma to_int_not_nil (n : Z) :
  Z.to_int n <> Decimal.Pos Decimal.Nil
  /\ Z.to_int n <> Decimal.Neg Decimal.Nil.
Proof.
  destruct n; simpl; split; try discriminate; intros [= H]; revert H;
    apply Unsigned.to_uint_nonnil.
Qed.

Lemma str_int_injective (n m : Z) : str_int n = str_int m -> n = m.
Proof.
  unfold str_int. intros H. apply DecimalZ.to_int_inj.
  destruct (to_int_not_nil n), (to_int_not_nil m).
  assert (Some (Z.to_int n) = Some (Z.to_int m)) as [= ->]; [|reflexivity].
  rewrite <- !NilZero.isi by assumption. rewrite H. reflexivity.
Qed.

Lemma cut_at_first (c : ascii) (a b x y : string) :
  free_of c a = true -> free_of c b = true ->
  (a ++ String c x)%string = (b ++ String c y)%string -> a = b.
Proof.
  revert b. induction a as [|u a' IH]; intros [|v b']; simpl.
  - reflexivity.
  - intros _ Hb [= <- _]. rewrite Ascii.eqb_refl in Hb. discriminate.
  - intros Ha _ [= -> _]. rewrite Ascii.eqb_refl in Ha. discriminate.
  - intros Ha Hb [= -> Heq].
    apply andb_true_iff in Ha as [_ Ha], Hb as [_ Hb].
    rewrite (IH b' Ha Hb Heq). reflexivity.
Qed.

Lemma thumb_name_counter (k1 k2 : Z) (m1 m2 : PhotoInfo) :
  thumb_name k1 m1 = thumb_name k2 m2 -> k1 = k2.
Proof.
  unfold thumb_name. simpl. intros [= H].
  apply str_int_injective.
  apply (cut_at_first "_" _ _ (filename m1) (filename m2));
    [apply free_of_underscore_str_int .. | exact H].
Qed.

(** X14. Within one call of [save_thumbnails] no two thumbnails get the same
    file name, even when the records share their [filename]: no thumbnail of
    the call overwrites another. *)
Theorem save_thumbnails_names_distinct (w : World) (out_dir : string)
    (thumb_size : Z * Z) (max_media : Z) (s : MacPhotosFilter) :
  NoDup (List.map snd
           (saved (fst (save_thumbnails w out_dir thumb_size max_media s)))).
Proof.
  unfold save_thumbnails.
  destruct (mkdir w out_dir) as [u|e]; cbn [fst]; [|constructor].
  apply NoDup_alt. intros i j name Hi Hj.
  rewrite list_lookup_fmap in Hi, Hj.
  destruct (saved _ !! i) as [[m1 f1]|] eqn:E1; [|discriminate].
  destruct (saved _ !! j) as [[m2 f2]|] eqn:E2; [|discriminate].
  simpl in Hi, Hj. injection Hi as ->. injection Hj as ->.
  apply loop_names in E1, E2. rewrite E1 in E2.
  apply thumb_name_counter in E2. lia.
Qed.




(** X16. With [max_media] zero or negative [save_thumbnails] opens no image
    and writes and prints nothing, however many records are stored: it only
    makes the directory, and ends as that ends. *)
Theorem save_thumbnails_no_room (w : World) (out_dir : string)
    (thumb_size : Z * Z) (max_media : Z) (s : MacPhotosFilter) :
  max_media <= 0 ->
  save_thumbnails w out_dir thumb_size max_media s = ([], mkdir w out_dir).
Proof.
  intros Hmax. unfold save_thumbnails.
  destruct (mkdir w out_dir) as [[]|e]; [|reflexivity].
  destruct (filtered_media s) as [|media rest]; simpl; [reflexivity|].
  destruct (Z.leb_spec max_media 0); [reflexivity | lia].
Qed.

Lemma save_thumbnails_no_room_witness :
  save_thumbnails (scenario_world t0) "thumbs" default_thumb_size (-1)
    (fst (filter_media (scenario_world t0) "all" (scenario_session t0)))
  = ([], Return tt).
Proof.
  apply (save_thumbnails_no_room (scenario_world t0) "thumbs"
           default_thumb_size (-1)
           (fst (filter_media (scenario_world t0) "all"
                   (scenario_session t0)))).
  lia.
Defined.

(** ** After [clear_filters] *)


(** With a file standing where the directory should be, both calls raise
    on the cleared session too. *)
Example cleared_session_directory_taken :
  save_thumbnails (taken_world t0) "taken" default_thumb_size 10
    (clear_filters (scenario_session t0))
    = ([], Raise (OSError "File exists: 'taken'"))
  /\ export_filtered_media (taken_world t0) "taken" true false
       (clear_filters (scenario_session t0))
     = ([], Raise (OSError "File exists: 'taken'")).
Proof. split; reflexivity. Qed.

(** ** [main] *)

Lemma filter_media_session w media_type s :
  fst (filter_media w media_type s)
  = set_filtered_media (snd (filter_media w media_type s)) s.
Proof. reflexivity. Qed.

Lemma main_selection_filter (w : World) (pf : MacPhotosFilter) :
  start_date pf = default_start_date ->
  end_date pf = now w - timedelta_days 1 ->
  target_location pf = main_target_latlon ->
  max_distance_km pf = main_max_distance_km ->
  snd (filter_media w "all" pf) = main_selection w.
Proof.
  intros Hs He Ht Hm. rewrite filter_media_result. unfold main_selection.
  apply filter_ext. intros p.
  unfold date_and_type_ok, location_ok, default_start_date in *.
  rewrite Hs, He, Ht, Hm. simpl. rewrite andb_true_r.
  destruct (location p) as [[lat lon]|]; reflexivity.
Qed.

Lemma main_steps (w : World) :
  main w
  = match tomllib_load w "config.toml" with
    | Raise e => Raise e
    | Return cfg =>
    match PhotosDB w with
    | Raise e => Raise e
    | Return _ =>
    match mkdir w main_export_dir with
    | Raise e => Raise e
    | Return _ =>
    match snd (export_calls w (str_Path w main_export_dir) true false
                 (main_selection w)) with
    | Raise e => Raise e
    | Return _ =>
    match mkdir w main_thumb_dir with
    | Raise e => Raise e
    | Return _ =>
        let tr :=
          thumbnail_loop w main_thumb_dir default_thumb_size
            default_max_media 0 (main_selection w) in
        Return
          {| main_pf :=
               {| config := cfg;
                  home_address := cfg_home_address (get_defaults cfg);
                  max_distance_km := main_max_distance_km;
                  start_date := default_start_date;
                  end_date := now w - timedelta_days 1;
                  target_location := main_target_latlon;
                  filtered_media := main_selection w |};
             main_thumbnails := tr;
             main_stdout :=
               (printed tr
                ++ [("Exported "
                       ++ str_int (Z.of_nat (length (main_selection w)))
                       ++ " files to " ++ main_export_dir)%string;
                    ("Saved thumbnails to " ++ main_thumb_dir)%string])%list |}
    end end end end end.
Proof.
  unfold main, __init__.
  destruct (tomllib_load w "config.toml") as [cfg|e]; [|reflexivity].
  cbn [mbind result_bind].
  destruct (PhotosDB w) as [u|e]; [|reflexivity].
  cbn [mbind result_bind].
  rewrite filter_media_session, (main_selection_filter w) by reflexivity.
  unfold export_filtered_media, save_thumbnails, set_filtered_media, yesterday.
  cbn [config home_address max_distance_km start_date end_date
    target_location filtered_media].
  destruct (mkdir w main_export_dir) as [u1|e]; [|reflexivity].
  destruct (snd (export_calls w (str_Path w main_export_dir) true false
                   (main_selection w))) as [u2|e]; [|reflexivity].
  destruct (mkdir w main_thumb_dir) as [u3|e]; reflexivity.
Qed.

(** X18. [main] returns exactly when [config.toml] can be read, the Photos
    library opens, the export directory and the thumbnail directory can be
    made, and every selected record can be exported. The explicit target
    and radius do not spare it the configuration file: when the file cannot
    be read, [main] raises that error before anything is filtered. *)
Theorem main_returns_iff (w : World) :
  ((exists r, main w = Return r)
   <-> (exists cfg, tomllib_load w "config.toml" = Return cfg)
       /\ (exists u, PhotosDB w = Return u)
       /\ (exists u, mkdir w main_export_dir = Return u)
       /\ Forall (fun media => exists u,
                    export w media (str_Path w main_export_dir) true false
                    = Return u)
            (main_selection w)
       /\ (exists u, mkdir w main_thumb_dir = Return u))
  /\ (forall e, tomllib_load w "config.toml" = Raise e -> main w = Raise e).
Proof.
  rewrite main_steps. split.
  - rewrite <- export_calls_return.
    destruct (tomllib_load w "config.toml") as [cfg|e];
      [|split; [intros [r Hr]; discriminate
               | intros ([cfg Hc] & _); discriminate]].
    destruct (PhotosDB w) as [u|e];
      [|split; [intros [r Hr]; discriminate
               | intros (_ & [u Hu] & _); discriminate]].
    destruct (mkdir w main_export_dir) as [u1|e];
      [|split; [intros [r Hr]; discriminate
               | intros (_ & _ & [u1 Hu] & _); discriminate]].
    destruct (snd (export_calls w (str_Path w main_export_dir) true false
                     (main_selection w))) as [[]|e];
      [|split; [intros [r Hr]; discriminate
               | intros (_ & _ & _ & He & _); discriminate]].
    destruct (mkdir w main_thumb_dir) as [u3|e];
      [|split; [intros [r Hr]; discriminate
               | intros (_ & _ & _ & _ & [u3 Hu]); discriminate]].
    split; [|eauto]. intros _. repeat split; eauto.
  - intros e ->. reflexivity.
Qed.

Lemma main_returns_iff_witness :
  main (no_config_world t0) = Raise (OSError "No such file or directory")
  /\ exists r, main (scenario_world t0) = Return r.
Proof.
  split.
  - apply (proj2 (main_returns_iff (no_config_world t0))). reflexivity.
  - apply (proj2 (proj1 (main_returns_iff (scenario_world t0)))).
    split; [exists default_config; reflexivity|].
    split; [exists tt; reflexivity|].
    split; [exists tt; reflexivity|].
    split; [|exists tt; reflexivity].
    apply Forall_forall. intros media _. exists tt. reflexivity.
Defined.

(** The library that cannot be opened and the directory that cannot be made
    stop [main] as well. *)
Example main_stopped :
  main (no_library_world t0)
    = Raise (OSError "cannot open the Photos library")
  /\ (forall w, mkdir w main_export_dir = Raise (OSError "Permission denied")
                -> tomllib_load w "config.toml" = Return default_config
                -> PhotosDB w = Return tt
                -> main w = Raise (OSError "Permission denied")).
Proof.
  split; [reflexivity|].
  intros w Hdir Hcfg Hdb. rewrite main_steps, Hcfg, Hdb, Hdir. reflexivity.
Qed.

(** X19. When [main] returns, its session has the explicit target and
    radius whatever the configuration says, and the window from the epoch
    to one day before now; the selected records are those of the library
    in that window and radius, in the order of the library; at most ten
    thumbnails were written; and the standard output is the lines of the
    failed thumbnails, then the line with the number of selected records,
    then the line with the thumbnail directory. *)
Theorem main_run_spec (w : World) (r : main_run) :
  main w = Return r ->
  target_location (main_pf r) = main_target_latlon
  /\ max_distance_km (main_pf r) = main_max_distance_km
  /\ start_date (main_pf r) = 0
  /\ end_date (main_pf r) = now w - timedelta_days 1
  /\ filtered_media (main_pf r) = main_selection w
  /\ main_thumbnails r
     = fst (save_thumbnails w main_thumb_dir (300, 300) 10 (main_pf r))
  /\ Z.of_nat (length (saved (main_thumbnails r))) <= 10
  /\ main_stdout r
     = (printed (main_thumbnails r)
        ++ [("Exported " ++ str_int (Z.of_nat (length (main_selection w)))
              ++ " files to /Users/mjboothaus/tmp/photos/seymour_st")%string;
            "Saved thumbnails to /Users/mjboothaus/tmp/photos/seymour_st_thumbs"])%list.
Proof.
  rewrite main_steps.
  destruct (tomllib_load w "config.toml") as [cfg|e]; [|discriminate].
  destruct (PhotosDB w) as [u|e]; [|discriminate].
  destruct (mkdir w main_export_dir) as [u1|e]; [|discriminate].
  destruct (snd (export_calls w (str_Path w main_export_dir) true false
                   (main_selection w))) as [u2|e]; [|discriminate].
  destruct (mkdir w main_thumb_dir) as [u3|e] eqn:Hdir; [|discriminate].
  intros [= <-]. cbn [main_pf main_thumbnails main_stdout target_location
    max_distance_km start_date end_date filtered_media].
  unfold save_thumbnails. rewrite Hdir.
  cbn [fst filtered_media]. repeat split.
  pose proof (loop_saves_at_most w main_thumb_dir default_thumb_size
                default_max_media (main_selection w) 0) as H.
  unfold default_max_media in *. lia.
Qed.

Lemma main_run_spec_witness :
  exists r,
    main (scenario_world t0) = Return r
    /\ filtered_media (main_pf r) = main_selection (scenario_world t0)
    /\ max_distance_km (main_pf r) = main_max_distance_km.
Proof.
  eexists. split; [reflexivity|].
  pose proof (main_run_spec (scenario_world t0) _ eq_refl) as H.
  split; [exact (proj1 (proj2 (proj2 (proj2 (proj2 H)))))
         | exact (proj1 (proj2 H))].
Defined.

(** ** Setters and the next filter *)

(** X20. [filter_media] applies the criteria in force at the moment of the
    call: after [set_location_by_gps(lat, lon)], [set_distance_km(d)] and
    [set_date_range(a, b)] the result holds exactly the records of the
    library with coordinates within [d] of [(lat, lon)], dated from [a] to
    [b], of the type asked; the earlier target, radius and window play no
    part. *)
Theorem filter_media_after_setters (w w' : World) (media_type : string)
    (s : MacPhotosFilter) (lat lon d : float) (a b : datetime)
    (p : PhotoInfo) :
  In p (snd (filter_media w media_type
               (set_date_range w' a (Some b)
                  (set_distance_km d (set_location_by_gps lat lon s)))))
  <-> In p (photos w)
      /\ (exists q, location p = Some q
                    /\ PrimFloat.leb (geodesic w (lat, lon) q) d = true)
      /\ a <= date p <= b
      /\ type_matches media_type p.
Proof.
  rewrite filter_media_result, filter_In, andb_true_iff,
    date_and_type_ok_spec, location_ok_spec.
  unfold within_distance. simpl. split.
  - intros (Hin & Hdt & lat' & lon' & Hloc & Hd). eauto 10.
  - intros (Hin & ([lat' lon'] & Hloc & Hd) & Hdt). eauto 10.
Qed.

(** Each setter changes its own criterion only: setters of different
    criteria give the same session in either order, and of two calls of one
    setter the later one alone counts. *)
Lemma setters_commute (w1 w2 : World) (s : MacPhotosFilter)
    (lat lon lat' lon' d d' : float) (a a' : datetime)
    (b b' : option datetime) :
  set_distance_km d (set_location_by_gps lat lon s)
    = set_location_by_gps lat lon (set_distance_km d s)
  /\ set_date_range w1 a b (set_location_by_gps lat lon s)
     = set_location_by_gps lat lon (set_date_range w1 a b s)
  /\ set_date_range w1 a b (set_distance_km d s)
     = set_distance_km d (set_date_range w1 a b s)
  /\ set_distance_km d' (set_distance_km d s) = set_distance_km d' s
  /\ set_location_by_gps lat' lon' (set_location_by_gps lat lon s)
     = set_location_by_gps lat' lon' s
  /\ set_date_range w2 a' b' (set_date_range w1 a b s)
     = set_date_range w2 a' b' s.
Proof. repeat split. Qed.
